(** * ws-sbom-generator: a shallow embedding of [sbom_generator.py]

    The development follows the source file top to bottom.  Python values
    are rendered as records and inductive types, dictionaries as [gmap]s,
    and the effects of the program (logging calls, exceptions, in-place
    updates of the due-diligence dictionaries, files written) as a small
    state-and-exception monad [Py] over an explicit [World]. *)

From Stdlib Require Import Ascii String List Decimal DecimalString.
From stdpp Require Import gmap strings list fin_maps.

(** ** Python string primitives used by the program *)

Module PyStr.

(** [str(n)] for a non-negative integer, as used by the f-strings. *)
Definition str_of_nat (n : nat) : string :=
  NilZero.string_of_uint (Nat.to_uint n).

(** [s.rstrip(c)] for a one-character argument: drop every trailing [c]. *)
Fixpoint rstrip (c : ascii) (s : string) : string :=
  match s with
  | EmptyString => EmptyString
  | String a s' =>
      match rstrip c s' with
      | EmptyString => if Ascii.eqb a c then EmptyString else String a EmptyString
      | r => String a r
      end
  end.

(** [c * k]: the character [c] repeated [k] times. *)
Fixpoint repeat_char (c : ascii) (k : nat) : string :=
  match k with
  | O => EmptyString
  | S k' => String c (repeat_char c k')
  end.

(** [s.endswith(c)] for a one-character argument. *)
Fixpoint endswith (c : ascii) (s : string) : bool :=
  match s with
  | EmptyString => false
  | String a EmptyString => Ascii.eqb a c
  | String _ s' => endswith c s'
  end.

(** [s.startswith(c)] for a one-character argument. *)
Definition startswith (c : ascii) (s : string) : bool :=
  match s with
  | EmptyString => false
  | String a _ => Ascii.eqb a c
  end.

(** [s.replace(c, "_")] for a one-character [c]. *)
Fixpoint replace_char (c : ascii) (s : string) : string :=
  match s with
  | EmptyString => EmptyString
  | String a s' =>
      String (if Ascii.eqb a c then "_"%char else a) (replace_char c s')
  end.

Definition upper_ascii (a : ascii) : ascii :=
  let n := nat_of_ascii a in
  if (97 <=? n)%nat && (n <=? 122)%nat then ascii_of_nat (n - 32) else a.

Definition lower_ascii (a : ascii) : ascii :=
  let n := nat_of_ascii a in
  if (65 <=? n)%nat && (n <=? 90)%nat then ascii_of_nat (n + 32) else a.

Fixpoint map_string (f : ascii -> ascii) (s : string) : string :=
  match s with
  | EmptyString => EmptyString
  | String a s' => String (f a) (map_string f s')
  end.

(** [s.upper()] and [s.lower()], on the ASCII letters. *)
Definition upper : string -> string := map_string upper_ascii.
Definition lower : string -> string := map_string lower_ascii.

(** Truth value of [x] where [x] is [None] or a string. *)
Definition truthy (x : option string) : bool :=
  match x with
  | None => false
  | Some EmptyString => false
  | Some _ => true
  end.

(** [os.path.join(a, b)] on a POSIX system. *)
Definition path_join (a b : string) : string :=
  if startswith "/" b then b
  else if (String.eqb a EmptyString || endswith "/" a)%bool then a +:+ b
  else a +:+ "/" +:+ b.

End PyStr.

Import PyStr.

(** ** Data model *)

(** Input records, as delivered by the vendor connection.  A key read with
    [d['k']] is a field; a key read with [d.get('k')] is an optional field. *)

Record LicenseEntry := {
  lic_name : string;                 (* lic['name'] *)
  lic_spdxName : option string       (* lic.get('spdxName') *)
}.

Record CopyrightEntry := {
  cr_copyright : option string;      (* c.get('copyright') *)
  cr_author : option string          (* a.get('author') *)
}.

Record LibraryRecord := {
  lib_filename : string;                       (* lib['filename'] *)
  lib_name : string;                           (* lib['name'] *)
  lib_version : option string;                 (* lib.get('version', ...) *)
  lib_sha1 : string;                           (* lib['sha1'] *)
  lib_licenses : list LicenseEntry;            (* lib.get('licenses') *)
  lib_copyrightReferences : list CopyrightEntry;
  lib_references : option (gmap string string) (* lib.get('references') *)
}.

Record DueDiligenceEntry := {
  dd_library : string;               (* d['library'] *)
  dd_name : string;                  (* d['name'] *)
  dd_author : option string          (* d.get('author') *)
}.

(** Values of the SPDX library.  [NoAssert()] and [SPDXNone()] are the two
    marker objects of [spdx.utils]. *)

Inductive SPDXValue (A : Type) : Type :=
  | NoAssert
  | SPDXNone
  | Value (a : A).
Arguments NoAssert {A}.
Arguments SPDXNone {A}.
Arguments Value {A} a.

Record License := {
  full_name : string;
  identifier : option string
}.

Record Organization := {
  org_name : string;
  org_email : SPDXValue string
}.

Record Algorithm := {
  alg_identifier : string;
  alg_value : string
}.

Record Package := {
  pkg_name : string;
  spdx_id : string;
  download_location : SPDXValue string;
  version : SPDXValue string;
  file_name : SPDXValue string;
  supplier : SPDXValue Organization;
  originator : SPDXValue Organization;
  files_analyzed : bool;
  homepage : SPDXValue string;
  check_sum : Algorithm;
  licenses_from_files : list License;
  conc_lics : SPDXValue License;
  license_declared : SPDXValue License;
  cr_text : SPDXValue (list (option string))
}.

(** A [Relationship] is built from its textual form. *)
Record Relationship := { relationship : string }.

Inductive Creator :=
  | CreatorOrganization (name email : string)
  | CreatorTool (name : string)
  | CreatorPerson (name email : string).

Record CreationInfo := { creators : list Creator }.

Record Version := { major : nat; minor : nat }.

Record Document := {
  doc_name : string;
  doc_namespace : string;
  document_spdx_id : string;
  doc_version : Version;
  data_license : string;
  creation_info : CreationInfo;
  packages : list Package;
  relationships : list Relationship
}.

(** ** Effects *)

Inductive LogLevel := DEBUG | INFO | WARNING | ERROR.

Record LogRecord := { level : LogLevel; message : string }.

Inductive PyExc :=
  | UnboundLocalError (var : string)
  | AttributeError (what : string)
  | KeyError (key : string)
  | FileNotFoundError
  | JSONDecodeError
  | IsADirectoryError
  | PermissionError
  | UnicodeDecodeError
  | InvalidDocumentError
  | OtherError (name : string)
  | DanglingReference.   (* no Python counterpart: a reference outside the store *)

(** Dictionaries that are shared between caller and callee live in a store
    and are passed around as references: a reference is an index into the
    store. *)
Abbreviation loc := nat.

(** One [open(full_path, mode=...)] followed by [module.write_document]. *)
Record WriteEvent := {
  write_path : string;
  write_module : string;     (* the writer module that was loaded *)
  write_flags : string;
  write_encoding : option string;
  write_doc : Document
}.

(** What [open(path, 'r')] followed by [fp.read()] finds at a path: a text,
    or a failure (the path is a directory, may not be read, holds bytes that
    do not decode, ...).  A path without entry does not exist. *)
Inductive FileState :=
  | Readable (content : string)
  | Unreadable (e : PyExc).

Record World := {
  heap : list DueDiligenceEntry;   (* the due-diligence dictionaries *)
  log : list LogRecord;            (* calls to [logging], oldest first *)
  files : gmap string FileState;   (* what is found at a path *)
  writes : list WriteEvent         (* reports written, oldest first *)
}.

Inductive Outcome (A : Type) : Type :=
  | Return (a : A)
  | Raise (e : PyExc).
Arguments Return {A} a.
Arguments Raise {A} e.

Definition Py (A : Type) : Type := World -> World * Outcome A.

Definition ret {A} (a : A) : Py A := fun w => (w, Return a).

Definition raise {A} (e : PyExc) : Py A := fun w => (w, Raise e).

Definition bind {A B} (m : Py A) (k : A -> Py B) : Py B :=
  fun w =>
    match m w with
    | (w', Return a) => k a w'
    | (w', Raise e) => (w', Raise e)
    end.

Declare Scope py_scope.
Delimit Scope py_scope with py.
Notation "'let*' x ':=' m 'in' k" := (bind m (fun x => k))
  (at level 10, x pattern, m at level 100, k at level 200) : py_scope.
Notation "m ';;' k" := (bind m (fun _ => k))
  (at level 100, k at level 200, right associativity) : py_scope.
Open Scope py_scope.

(** [logging.<level>(msg)] *)
Definition logging (lv : LogLevel) (msg : string) : Py unit :=
  fun w =>
    ({| heap := heap w;
        log := log w ++ [{| level := lv; message := msg |}];
        files := files w;
        writes := writes w |}, Return tt).

(** Reading a field through a reference. *)
Definition deref (l : loc) : Py DueDiligenceEntry :=
  fun w =>
    match heap w !! l with
    | Some d => (w, Return d)
    | None => (w, Raise DanglingReference)
    end.

(** [d['library'] = d['library'].rstrip('*')] on the dictionary at [l]. *)
Definition strip_library (d : DueDiligenceEntry) : DueDiligenceEntry :=
  {| dd_library := rstrip "*" (dd_library d);
     dd_name := dd_name d;
     dd_author := dd_author d |}.

Definition store_stripped (l : loc) : Py unit :=
  fun w =>
    ({| heap := alter strip_library l (heap w);
        log := log w;
        files := files w;
        writes := writes w |}, Return tt).

Fixpoint for_each {A} (l : list A) (body : A -> Py unit) : Py unit :=
  match l with
  | [] => ret tt
  | x :: xs => body x ;; for_each xs body
  end.

(** ** The program *)

(** *** [get_author_from_cr] (lines 161-168) *)

(** [[a['author'] for a in copyright_references if a.get('author')]] *)
Definition cr_authors (copyright_references : list CopyrightEntry) : list string :=
  omap (fun a => if truthy (cr_author a) then cr_author a else None)
       copyright_references.

(** [authors.pop()] removes and returns the final element of the list;
    stdpp's [last] is that element. *)
Definition get_author_from_cr (copyright_references : list CopyrightEntry)
  : Py (option string) :=
  let authors := cr_authors copyright_references in
  (if (1 <? length authors)%nat then
     logging WARNING ("Found " +:+ str_of_nat (length authors)
                      +:+ " authors on the lib. Will return the 1st")
   else if bool_decide (authors = []) then
     logging WARNING "No author data found on lib"
   else ret tt) ;;
  ret (match authors with [] => None | _ => last authors end).

(** *** [create_package] (lines 102-158) *)

Definition create_package (lib : LibraryRecord)
    (dd_dict : gmap (string * string) loc) : Py (Package * string) :=
  let pkg_spdx_id := "SPDXRef-PACKAGE-" +:+ lib_filename lib in
  logging DEBUG ("Creating Package " +:+ pkg_spdx_id) ;;
  let lib_licenses := lib_licenses lib in
  let dd_keys := map (fun lic => (lib_filename lib, lic_name lic)) lib_licenses in
  let dd_entities := map (fun dd_key => dd_dict !! dd_key) dd_keys in
  let originator := NoAssert in
  let lib_copyrights := lib_copyrightReferences lib in
  (* the local [author]: [None] while it is unbound *)
  let* author :=
    match dd_entities with
    | [] => ret None
    | e0 :: _ =>
        match e0 with
        | None => raise (AttributeError "'NoneType' object has no attribute 'get'")
        | Some l => let* d := deref l in ret (Some (dd_author d))
        end
    end in
  let* author :=
    match author with
    | None => raise (UnboundLocalError "author")
    | Some a =>
        if negb (truthy a) then
          logging DEBUG "No author found from Due Diligence data. Will to get copyright from library data" ;;
          get_author_from_cr lib_copyrights
        else ret a
    end in
  let* originator :=
    match author with
    | Some a =>
        if truthy author then
          ret (Value {| org_name := a; org_email := NoAssert |})
        else
          logging WARNING ("Unable to find the author of library: " +:+ lib_name lib +:+ " ") ;;
          ret originator
    | None =>
        logging WARNING ("Unable to find the author of library: " +:+ lib_name lib +:+ " ") ;;
        ret originator
    end in
  let copyrights := map cr_copyright lib_copyrights in
  let* copyrights :=
    match copyrights with
    | [] =>
        logging WARNING ("No copyright info found for library: " +:+ lib_name lib) ;;
        ret SPDXNone
    | _ => ret (Value copyrights)
    end in
  let references := lib_references lib in
  let references_truthy :=
    match references with
    | Some r => negb (bool_decide (r = ∅))
    | None => false
    end in
  (if negb references_truthy then
     logging WARNING ("No references were found for library: " +:+ lib_name lib)
   else ret tt) ;;
  let download_location :=
    match references with
    | Some r =>
        if references_truthy then
          match r !! "url" with Some u => Value u | None => NoAssert end
        else NoAssert
    | None => NoAssert
    end in
  let licenses :=
    map (fun lic => {| full_name := lic_name lic; identifier := lic_spdxName lic |})
        lib_licenses in
  (if (1 <? length licenses)%nat then
     logging WARNING ("Library " +:+ lib_name lib +:+ " has "
                      +:+ str_of_nat (length licenses)
                      +:+ " licenses. Using the 1st one")
   else ret tt) ;;
  let* licenses1 :=
    match licenses with
    | lic0 :: _ => ret (Value lic0)
    | [] =>
        logging WARNING ("No license found for library: " +:+ lib_name lib) ;;
        ret SPDXNone
    end in
  let package :=
    {| pkg_name := lib_name lib;
       spdx_id := pkg_spdx_id;
       download_location := download_location;
       version := match lib_version lib with Some v => Value v | None => NoAssert end;
       file_name := Value (lib_filename lib);
       supplier := originator;
       originator := originator;
       files_analyzed := false;
       homepage := download_location;
       check_sum := {| alg_identifier := "SHA-1"; alg_value := lib_sha1 lib |};
       licenses_from_files := licenses;
       conc_lics := licenses1;
       license_declared := licenses1;
       cr_text := copyrights |} in
  logging DEBUG ("Finished creating Package " +:+ pkg_spdx_id) ;;
  ret (package, pkg_spdx_id).

(** *** [create_packages] (lines 85-99) *)

(** Modelled from the spec: [ws_utilities.convert_dict_list_to_dict] belongs
    to the ws_sdk package.  Section 4.1: a mapping from (identifier,
    license-name) to the entry; duplicate keys silently overwrite, last write
    wins.  The values are the dictionaries of [lst] themselves, so the mapping
    holds their references. *)
Definition convert_dict_list_to_dict (h : list DueDiligenceEntry)
    (lst : list loc) : gmap (string * string) loc :=
  foldl (fun ret i =>
           match h !! i with
           | Some d => <[(dd_library d, dd_name d) := i]> ret
           | None => ret
           end) ∅ lst.

Fixpoint create_packages_loop (libs : list LibraryRecord)
    (dd_dict : gmap (string * string) loc)
    (packages : list Package) (pkgs_spdx_ids : list string)
  : Py (list Package * list string) :=
  match libs with
  | [] => ret (packages, pkgs_spdx_ids)
  | lib :: libs' =>
      let* (pkg, pkg_spdx_id) := create_package lib dd_dict in
      create_packages_loop libs' dd_dict
        (packages ++ [pkg]) (pkgs_spdx_ids ++ [pkg_spdx_id])
  end.

Definition create_packages (libs : list LibraryRecord) (due_dil : list loc)
  : Py (list Package * list string) :=
  logging DEBUG "Creating Packages entity" ;;
  for_each due_dil store_stripped ;;
  let* dd_dict := (fun w => (w, Return (convert_dict_list_to_dict (heap w) due_dil))) in
  let* (packages, pkgs_spdx_ids) := create_packages_loop libs dd_dict [] [] in
  logging DEBUG "Finished creating Packages entity" ;;
  ret (packages, pkgs_spdx_ids).

(** *** [create_document] (lines 56-66) and [create_creation_info] (69-82) *)

Definition create_document (scope_name : string) (namespace : string)
  : Py (Document * string) :=
  logging DEBUG "Creating SBOM Document entity" ;;
  let doc_spdx_id := "SPDXRef-DOCUMENT" in
  let document :=
    {| doc_name := "WhiteSource " +:+ scope_name +:+ " SBOM report";
       doc_namespace := namespace;
       document_spdx_id := doc_spdx_id;
       doc_version := {| major := 2; minor := 2 |};
       data_license := "CC0-1.0";
       creation_info := {| creators := [] |};
       packages := [];
       relationships := [] |} in
  logging DEBUG "Finished SBOM Document entity" ;;
  ret (document, doc_spdx_id).

(** The creation time stamp ([set_created_now]) is not part of the model. *)
Definition create_creation_info (org_name org_email person_name person_email : string)
  : Py CreationInfo :=
  logging DEBUG "Creating Creation Info entity" ;;
  let org := CreatorOrganization org_name org_email in
  let tool := CreatorTool "White Source SBOM Report Generator" in
  let person := CreatorPerson person_name person_email in
  let creators := [] ++ [org] in
  let creators := creators ++ [tool] in
  let creators := creators ++ [person] in
  logging DEBUG "Finished creating Creation Info entity" ;;
  ret {| creators := creators |}.

(** *** [SPDXFileType] (lines 235-263) *)

Inductive SPDXFileType := TV | RDF | XML.

Definition value (t : SPDXFileType) : string * string * string * option string :=
  match t with
  | TV => ("tv", "spdx.writers.tagvalue", "w", Some "utf-8")
  | RDF => ("xml", "spdx.writers.rdf", "wb", None)
  | XML => ("xml", "spdx.writers.xml", "wb", None)
  end.

Definition suffix (t : SPDXFileType) : string := (value t).1.1.1.
Definition module_classpath (t : SPDXFileType) : string := (value t).1.1.2.
Definition f_flags (t : SPDXFileType) : string := (value t).1.2.
Definition encoding (t : SPDXFileType) : option string := (value t).2.

(** [SPDXFileType.__members__], in definition order. *)
Definition members : list (string * SPDXFileType) :=
  [("TV", TV); ("RDF", RDF); ("XML", XML)].

(** [cls.__dict__[f_t.upper()]]: the only upper-case names of the class are
    its members. *)
Definition get_file_type (f_t : string) : Py SPDXFileType :=
  match (list_to_map members : gmap string SPDXFileType) !! upper f_t with
  | Some t => ret t
  | None => raise (KeyError (upper f_t))
  end.

(** *** Command-line arguments and the vendor connection *)

(** The fields of the global [args] that the functions below read.  The
    configuration is a JSON object with string values. *)
Record Args := {
  arg_type : string;                  (* args.type *)
  extra : string;                     (* args.extra *)
  out_dir : string;                   (* args.out_dir *)
  extra_conf : gmap string string     (* args.extra_conf *)
}.

(** What [args.ws_conn] answers for one scope token. *)
Record ScopeData := {
  scope_type : string;                        (* get_scope_by_token(..)['type'] *)
  scope_short_name : string;                  (* get_scope_by_token(..)['name'] *)
  scope_name : string;                        (* get_scope_name_by_token(..) *)
  conn_name : string;                         (* get_name() *)
  due_diligence : list DueDiligenceEntry;     (* get_due_diligence(..) *)
  licenses_report : list LibraryRecord        (* get_licenses(.., full_spdx=True) *)
}.

(** A list of dictionaries received from the connection is new: its
    dictionaries are put at the end of the store. *)
Definition alloc_dicts (ds : list DueDiligenceEntry) : Py (list loc) :=
  fun w =>
    ({| heap := heap w ++ ds;
        log := log w;
        files := files w;
        writes := writes w |},
     Return (seq (length (heap w)) (length ds))).

(** [try: body except <exceptions accepted by handler>: handler] *)
Definition try_except {A} (body : Py A) (handler : PyExc -> option (Py A)) : Py A :=
  fun w =>
    match body w with
    | (w', Return a) => (w', Return a)
    | (w', Raise e) =>
        match handler e with
        | Some h => h w'
        | None => (w', Raise e)
        end
    end.

(** [open(path, 'r')] followed by [fp.read()] *)
Definition open_read (path : string) : Py string :=
  fun w =>
    match files w !! path with
    | Some (Readable content) => (w, Return content)
    | Some (Unreadable e) => (w, Raise e)
    | None => (w, Raise FileNotFoundError)
    end.

Section Externals.

(** [ws_constants.INVALID_FS_CHARS] of the ws_sdk package. *)
Variable INVALID_FS_CHARS : list ascii.

(** [str(doc.version)] of the spdx package. *)
Variable version_str : Version -> string.

(** [json.loads] on a configuration text: [None] stands for
    [json.JSONDecodeError]. *)
Variable json_loads : string -> option (gmap string string).

(** [open(full_path, mode=..., encoding=...)] followed by
    [module.write_document(doc, fp)] of the spdx package, for the writer of a
    file type: [Some e] when the import of the writer, the open or the writer
    raises [e] (the output directory is missing, the document does not
    validate, ...), [None] when the report is written. *)
Variable write_fails : string -> SPDXFileType -> Document -> option PyExc.

(** *** [init] (lines 171-183) *)

(** Line 172 builds the connection object [args.ws_conn]; what that object
    answers is handed to [create_sbom_doc] and [main] as [ScopeData] and
    [Connection].  The definition is the loading of the configuration,
    lines 176-183: only [FileNotFoundError] and [json.JSONDecodeError] are
    caught. *)

Definition init (args : Args) : Py Args :=
  let args :=
    {| arg_type := arg_type args; extra := extra args;
       out_dir := out_dir args; extra_conf := ∅ |} in
  try_except
    (let* text := open_read (extra args) in
     match json_loads text with
     | Some conf =>
         ret {| arg_type := arg_type args; extra := extra args;
                out_dir := out_dir args; extra_conf := conf |}
     | None => raise JSONDecodeError
     end)
    (fun e =>
       match e with
       | FileNotFoundError =>
           Some (logging WARNING (extra args +:+ " configuration file was not found") ;;
                 ret args)
       | JSONDecodeError =>
           Some (logging ERROR ("Unable to parse file: " +:+ extra args) ;;
                 ret args)
       | _ => None
       end).

(** *** [replace_invalid_chars] (lines 202-208) *)

Definition replace_invalid_chars (filename : string) : Py string :=
  let old_name := filename in
  let filename := foldl (fun f char => replace_char char f) filename INVALID_FS_CHARS in
  logging DEBUG ("Original name:'" +:+ old_name +:+ "' Fixed filename: '"
                 +:+ filename +:+ "'") ;;
  ret filename.

(** *** [write_file] (lines 222-232) and [write_report] (211-219) *)

(** Lines 227-230.  A write that raises leaves no report in [writes]. *)
Definition write_document (full_path : string) (t : SPDXFileType)
    (doc : Document) : Py unit :=
  fun w =>
    match write_fails full_path t doc with
    | Some e => (w, Raise e)
    | None =>
        ({| heap := heap w;
            log := log w;
            files := files w;
            writes := writes w ++
              [{| write_path := full_path;
                  write_module := module_classpath t;
                  write_flags := f_flags t;
                  write_encoding := encoding t;
                  write_doc := doc |}] |}, Return tt)
    end.

Definition write_file (args : Args) (doc : Document) (file_type : string)
  : Py string :=
  logging INFO ("Saving report in " +:+ file_type +:+ " format") ;;
  let* spdx_file_type := get_file_type file_type in
  let* report_filename :=
    replace_invalid_chars
      (doc_name doc +:+ "-" +:+ version_str (doc_version doc) +:+ "."
       +:+ suffix spdx_file_type) in
  let full_path := path_join (out_dir args) report_filename in
  logging DEBUG ("Writing file: " +:+ full_path +:+ " in format: " +:+ file_type) ;;
  write_document full_path spdx_file_type doc ;;
  ret full_path.

Fixpoint write_report_loop (args : Args) (doc : Document)
    (f_types : list string) (full_paths : list string) : Py (list string) :=
  match f_types with
  | [] => ret full_paths
  | f_type :: rest =>
      let* full_path := write_file args doc f_type in
      write_report_loop args doc rest (full_paths ++ [full_path])
  end.

Definition write_report (args : Args) (doc : Document) (file_type : string)
  : Py (list string) :=
  let f_types :=
    if String.eqb file_type "all"
    then map (fun m => lower m.1) members
    else [file_type] in
  write_report_loop args doc f_types [].

(** *** [create_sbom_doc] (lines 31-53) *)

(** Lines 32-48: the document as it is handed to [write_report]. *)
Definition assemble_sbom_doc (args : Args) (conn : ScopeData) : Py Document :=
  logging INFO ("Creating SBOM Document from WhiteSource " +:+ scope_type conn
                +:+ " " +:+ scope_short_name conn) ;;
  let scope_name := scope_name conn in
  let namespace :=
    default "http://[CreatorWebsite]/[pathToSpdx]/[DocumentName]-[UUID]"
            (extra_conf args !! "namespace") in
  let* (doc, doc_spdx_id) := create_document scope_name namespace in
  let* creation_info :=
    create_creation_info (conn_name conn)
      (default "ORG_EMAIL" (extra_conf args !! "org_email"))
      (default "PERSON" (extra_conf args !! "person"))
      (default "PERSON_EMAIL" (extra_conf args !! "person_email")) in
  let* due_dil := alloc_dicts (due_diligence conn) in
  let libs_from_lic_report := licenses_report conn in
  let* (pkgs, pkgs_spdx_ids) := create_packages libs_from_lic_report due_dil in
  let rels :=
    foldl (fun rels pkg_id =>
             rels ++ [{| relationship :=
                           pkg_id +:+ " " +:+ "DESCRIBED_BY" +:+ " " +:+ doc_spdx_id |}])
          (relationships doc) pkgs_spdx_ids in
  ret {| doc_name := doc_name doc;
         doc_namespace := doc_namespace doc;
         document_spdx_id := document_spdx_id doc;
         doc_version := doc_version doc;
         data_license := data_license doc;
         creation_info := creation_info;
         packages := pkgs;
         relationships := rels |}.

Definition create_sbom_doc (args : Args) (conn : ScopeData) : Py (list string) :=
  let* doc := assemble_sbom_doc args conn in
  let* file_path := write_report args doc (arg_type args) in
  logging INFO ("Finished report: " +:+ scope_type conn) ;;
  ret file_path.

End Externals.

(** ** Auxiliary definitions for the statements *)

(** A computation that leaves the store alone. *)
Definition keeps_heap {A} (m : Py A) : Prop :=
  forall w, heap (m w).1 = heap w.

(** The store after the normalisation loop of [create_packages]. *)
Definition stripped_heap (h : list DueDiligenceEntry) (due_dil : list loc)
  : list DueDiligenceEntry :=
  foldl (fun h l => alter strip_library l h) h due_dil.


(** The due-diligence author as section 4.2 of the specification words it:
    over the matches of the library's keys, in key order, the author of the
    first match that carries a non-empty author. *)
Definition spec_dd_author (lib : LibraryRecord)
    (dd_dict : gmap (string * string) loc) (h : list DueDiligenceEntry)
  : option string :=
  head (omap (fun lic =>
                match dd_dict !! (lib_filename lib, lic_name lic) with
                | Some l =>
                    match h !! l with
                    | Some d => if truthy (dd_author d) then dd_author d else None
                    | None => None
                    end
                | None => None
                end) (lib_licenses lib)).

(** The world [w] with the records [recs] added to its log. *)
Definition logged (w : World) (recs : list LogRecord) : World :=
  {| heap := heap w; log := log w ++ recs; files := files w; writes := writes w |}.

(** The identifier [create_package] gives to the package of [lib]
    (line 103). *)
Definition package_id (lib : LibraryRecord) : string :=
  "SPDXRef-PACKAGE-" +:+ lib_filename lib.

(** The relationship that [create_sbom_doc] appends for a package identifier
    (line 48). *)
Definition described_by (pkg_id : string) : Relationship :=
  {| relationship := pkg_id +:+ " DESCRIBED_BY SPDXRef-DOCUMENT" |}.

(** The file name after the replacement loop of [replace_invalid_chars]. *)
Definition fixed_filename (INVALID_FS_CHARS : list ascii) (filename : string) : string :=
  foldl (fun f char => replace_char char f) filename INVALID_FS_CHARS.

(** The path [write_file] writes a document to for the file type [t]. *)
Definition report_path (INVALID_FS_CHARS : list ascii)
    (version_str : Version -> string) (args : Args) (doc : Document)
    (t : SPDXFileType) : string :=
  path_join (out_dir args)
    (fixed_filename INVALID_FS_CHARS
       (doc_name doc +:+ "-" +:+ version_str (doc_version doc) +:+ "." +:+ suffix t)).

(** The write that [write_file] performs for the file type [t]. *)
Definition report_write (INVALID_FS_CHARS : list ascii)
    (version_str : Version -> string) (args : Args) (doc : Document)
    (t : SPDXFileType) : WriteEvent :=
  {| write_path := report_path INVALID_FS_CHARS version_str args doc t;
     write_module := module_classpath t;
     write_flags := f_flags t;
     write_encoding := encoding t;
     write_doc := doc |}.

(** The records [write_file] logs before it opens the file (lines 223, 206
    and 228). *)
Definition write_file_log (INVALID_FS_CHARS : list ascii)
    (version_str : Version -> string) (args : Args) (doc : Document)
    (file_type : string) (t : SPDXFileType) : list LogRecord :=
  [{| level := INFO;
      message := "Saving report in " +:+ file_type +:+ " format" |};
   {| level := DEBUG;
      message := "Original name:'"
        +:+ (doc_name doc +:+ "-" +:+ version_str (doc_version doc) +:+ "." +:+ suffix t)
        +:+ "' Fixed filename: '"
        +:+ fixed_filename INVALID_FS_CHARS
              (doc_name doc +:+ "-" +:+ version_str (doc_version doc) +:+ "."
               +:+ suffix t)
        +:+ "'" |};
   {| level := DEBUG;
      message := "Writing file: "
                 +:+ report_path INVALID_FS_CHARS version_str args doc t
                 +:+ " in format: " +:+ file_type |}].

(** The error of the first write that fails when reports of the file types
    [ts] are written in this order, if one fails. *)
Fixpoint first_write_error
    (write_fails : string -> SPDXFileType -> Document -> option PyExc)
    (INVALID_FS_CHARS : list ascii) (version_str : Version -> string)
    (args : Args) (doc : Document) (ts : list SPDXFileType) : option PyExc :=
  match ts with
  | [] => None
  | t :: ts' =>
      match write_fails (report_path INVALID_FS_CHARS version_str args doc t) t doc with
      | Some e => Some e
      | None => first_write_error write_fails INVALID_FS_CHARS version_str args doc ts'
      end
  end.

(** [args] after [init] found no usable configuration. *)
Definition with_empty_conf (args : Args) : Args :=
  {| arg_type := arg_type args; extra := extra args;
     out_dir := out_dir args; extra_conf := ∅ |}.

(** The author [create_package] settles on (lines 111-115), given the author
    of the due-diligence entry of the first key. *)
Definition resolved_author (dd_author : option string)
    (crs : list CopyrightEntry) : option string :=
  if truthy dd_author then dd_author
  else match cr_authors crs with [] => None | _ => last (cr_authors crs) end.

(** The originator for a resolved author (lines 108, 116-117). *)
Definition originator_of (author : option string) : SPDXValue Organization :=
  match author with
  | Some a => if truthy author
              then Value {| org_name := a; org_email := NoAssert |}
              else NoAssert
  | None => NoAssert
  end.

(** The download location of a library (line 128). *)
Definition download_location_of (lib : LibraryRecord) : SPDXValue string :=
  match lib_references lib with
  | Some r =>
      if negb (bool_decide (r = ∅))
      then match r !! "url" with Some u => Value u | None => NoAssert end
      else NoAssert
  | None => NoAssert
  end.

(** The licenses found in files (line 142). *)
Definition licenses_of (lib : LibraryRecord) : list License :=
  map (fun lic => {| full_name := lic_name lic; identifier := lic_spdxName lic |})
      (lib_licenses lib).

(** The package [create_package] returns for [lib] when the due-diligence
    entry of its first key has the author [dd_author]. *)
Definition package_of (lib : LibraryRecord) (dd_author : option string) : Package :=
  let originator :=
    originator_of (resolved_author dd_author (lib_copyrightReferences lib)) in
  let licenses1 :=
    match licenses_of lib with
    | lic0 :: _ => Value lic0
    | [] => SPDXNone
    end in
  {| pkg_name := lib_name lib;
     spdx_id := package_id lib;
     download_location := download_location_of lib;
     version := match lib_version lib with Some v => Value v | None => NoAssert end;
     file_name := Value (lib_filename lib);
     supplier := originator;
     originator := originator;
     files_analyzed := false;
     homepage := download_location_of lib;
     check_sum := {| alg_identifier := "SHA-1"; alg_value := lib_sha1 lib |};
     licenses_from_files := licenses_of lib;
     conc_lics := licenses1;
     license_declared := licenses1;
     cr_text := match map cr_copyright (lib_copyrightReferences lib) with
                | [] => SPDXNone
                | c => Value c
                end |}.

(** The warning of line 145. *)
Definition many_licenses_warning (lib : LibraryRecord) : LogRecord :=
  {| level := WARNING;
     message := "Library " +:+ lib_name lib +:+ " has "
                +:+ str_of_nat (length (lib_licenses lib))
                +:+ " licenses. Using the 1st one" |}.

(** ** [main] (lines 266-278) *)

(** What [args.ws_conn] answers over a run: the tokens of [get_projects()],
    in order, and the answers for each scope token. *)
Record Connection := {
  get_projects : list string;
  scope_data : string -> ScopeData
}.

Section Main.

Variable INVALID_FS_CHARS : list ascii.
Variable version_str : Version -> string.
Variable json_loads : string -> option (gmap string string).
Variable write_fails : string -> SPDXFileType -> Document -> option PyExc.

(** [ws_utilities.is_token] of the ws_sdk package. *)
Variable is_token : string -> bool.

(** The loop of lines 275-276; the local [file_paths] is [None] while it is
    unbound. *)
Fixpoint main_loop (args : Args) (ws : Connection) (scopes : list string)
    (file_paths : option (list string)) : Py (option (list string)) :=
  match scopes with
  | [] => ret file_paths
  | token :: rest =>
      let* paths :=
        create_sbom_doc INVALID_FS_CHARS version_str write_fails args
          (scope_data ws token) in
      main_loop args ws rest (Some paths)
  end.

(** [main] after [parse_args()]: [args] holds the parsed command line and
    [scope_token] is [args.scope_token]. *)
Definition main (args : Args) (scope_token : option string) (ws : Connection)
  : Py (list string) :=
  let* args := init json_loads args in
  let* file_paths :=
    match scope_token with
    | Some token =>
        if (truthy scope_token && is_token token)%bool then
          let* paths :=
            create_sbom_doc INVALID_FS_CHARS version_str write_fails args
          (scope_data ws token) in
          ret (Some paths)
        else
          logging INFO "Creating SBOM reports on all Organization Projects" ;;
          main_loop args ws (get_projects ws) None
    | None =>
        logging INFO "Creating SBOM reports on all Organization Projects" ;;
        main_loop args ws (get_projects ws) None
    end in
  match file_paths with
  | Some paths => ret paths
  | None => raise (UnboundLocalError "file_paths")
  end.

End Main.

(** ** Further definitions for the statements *)

(** The records [get_author_from_cr] logs (lines 163-166). *)
Definition author_cr_log (crs : list CopyrightEntry) : list LogRecord :=
  if (1 <? length (cr_authors crs))%nat then
    [{| level := WARNING;
        message := "Found " +:+ str_of_nat (length (cr_authors crs))
                   +:+ " authors on the lib. Will return the 1st" |}]
  else if bool_decide (cr_authors crs = []) then
    [{| level := WARNING; message := "No author data found on lib" |}]
  else [].

Definition no_author_warning (lib : LibraryRecord) : LogRecord :=
  {| level := WARNING;
     message := "Unable to find the author of library: " +:+ lib_name lib +:+ " " |}.

Definition no_copyright_warning (lib : LibraryRecord) : LogRecord :=
  {| level := WARNING;
     message := "No copyright info found for library: " +:+ lib_name lib |}.

Definition no_references_warning (lib : LibraryRecord) : LogRecord :=
  {| level := WARNING;
     message := "No references were found for library: " +:+ lib_name lib |}.

Definition no_license_warning (lib : LibraryRecord) : LogRecord :=
  {| level := WARNING;
     message := "No license found for library: " +:+ lib_name lib |}.

(** [if references] of lines 126 and 128. *)
Definition references_truthy (lib : LibraryRecord) : bool :=
  match lib_references lib with
  | Some r => negb (bool_decide (r = ∅))
  | None => false
  end.

(** The records [create_package] logs, in order, when the due-diligence
    entry of the first key of [lib] has the author [dd_author]. *)
Definition package_log (lib : LibraryRecord) (dd_author : option string)
  : list LogRecord :=
  [{| level := DEBUG; message := "Creating Package " +:+ package_id lib |}]
  ++ (if truthy dd_author then []
      else {| level := DEBUG;
              message := "No author found from Due Diligence data. Will to get copyright from library data" |}
           :: author_cr_log (lib_copyrightReferences lib))
  ++ (if truthy (resolved_author dd_author (lib_copyrightReferences lib)) then []
      else [no_author_warning lib])
  ++ (match lib_copyrightReferences lib with
      | [] => [no_copyright_warning lib]
      | _ => []
      end)
  ++ (if references_truthy lib then [] else [no_references_warning lib])
  ++ (if (1 <? length (lib_licenses lib))%nat then [many_licenses_warning lib] else [])
  ++ (match lib_licenses lib with
      | [] => [no_license_warning lib]
      | _ => []
      end)
  ++ [{| level := DEBUG; message := "Finished creating Package " +:+ package_id lib |}].

(** The library has a license entry, and some dictionary of [due_dil] has,
    once the trailing ['*'] of its ['library'] are dropped, the file name of
    the library and the name of its first license. *)
Definition has_entry (h : list DueDiligenceEntry) (due_dil : list loc)
    (lib : LibraryRecord) : Prop :=
  exists lic0 rest l d,
    lib_licenses lib = lic0 :: rest
    /\ l ∈ due_dil
    /\ h !! l = Some d
    /\ rstrip "*" (dd_library d) = lib_filename lib
    /\ dd_name d = lic_name lic0.

(** The first key of [lib] is in the index and refers to a dictionary. *)
Definition first_key_indexed (dd_dict : gmap (string * string) loc)
    (h : list DueDiligenceEntry) (lib : LibraryRecord) (d : DueDiligenceEntry) : Prop :=
  exists lic0 rest l,
    lib_licenses lib = lic0 :: rest
    /\ dd_dict !! (lib_filename lib, lic_name lic0) = Some l
    /\ h !! l = Some d.

(** What the loop of [replace_invalid_chars] does to one character. *)
Definition fix_char (INVALID_FS_CHARS : list ascii) (c : ascii) : ascii :=
  if bool_decide (c ∈ INVALID_FS_CHARS) then "_"%char else c.

(** The name of a member of [SPDXFileType]. *)
Definition member_name (t : SPDXFileType) : string :=
  match t with TV => "TV" | RDF => "RDF" | XML => "XML" end.

(** A computation that at most adds records to the log: the store, the
    files and the reports written stay as they are. *)
Definition only_logs {A} (m : Py A) : Prop :=
  forall w, exists recs, (m w).1 = logged w recs.
(** ** Concrete inputs *)

Module Examples.

Definition empty_world : World :=
  {| heap := []; log := []; files := ∅; writes := [] |}.

(** The due-diligence entry of the spec's scenario. *)
Definition dd_acme : DueDiligenceEntry :=
  {| dd_library := "foo-1.0.jar*"; dd_name := "MIT";
     dd_author := Some "Acme Corp" |}.

Definition world_acme : World :=
  {| heap := [dd_acme]; log := []; files := ∅; writes := [] |}.

Definition lic_mit : LicenseEntry :=
  {| lic_name := "MIT"; lic_spdxName := Some "MIT" |}.

Definition lic_apache : LicenseEntry :=
  {| lic_name := "Apache-2.0"; lic_spdxName := Some "Apache-2.0" |}.

(** The library of the spec's scenario. *)
Definition lib_foo : LibraryRecord :=
  {| lib_filename := "foo-1.0.jar"; lib_name := "foo";
     lib_version := Some "1.0"; lib_sha1 := "abc123";
     lib_licenses := [lic_mit; lic_apache];
     lib_copyrightReferences := [];
     lib_references := None |}.

(** A library without license entries. *)
Definition lib_bare : LibraryRecord :=
  {| lib_filename := "bar-2.0.zip"; lib_name := "bar";
     lib_version := None; lib_sha1 := "def456";
     lib_licenses := [];
     lib_copyrightReferences :=
       [{| cr_copyright := Some "Copyright 2020 Bar"; cr_author := Some "Bar Ltd" |}];
     lib_references := None |}.

(** Due-diligence data in which only the second key of [lib_foo] has an
    entry. *)
Definition dd_apache : DueDiligenceEntry :=
  {| dd_library := "foo-1.0.jar"; dd_name := "Apache-2.0";
     dd_author := Some "Acme Corp" |}.

Definition world_apache : World :=
  {| heap := [dd_apache]; log := []; files := ∅; writes := [] |}.

(** Due-diligence data in which the first key of [lib_foo] has an entry
    without author and the second key an entry with one. *)
Definition dd_mit_anonymous : DueDiligenceEntry :=
  {| dd_library := "foo-1.0.jar"; dd_name := "MIT"; dd_author := None |}.

Definition world_second_author : World :=
  {| heap := [dd_mit_anonymous; dd_apache]; log := []; files := ∅; writes := [] |}.

(** Copyright entries with two authors. *)
Definition cr_alice : CopyrightEntry :=
  {| cr_copyright := Some "Copyright 2019 Alice"; cr_author := Some "Alice" |}.
Definition cr_bob : CopyrightEntry :=
  {| cr_copyright := Some "Copyright 2021 Bob"; cr_author := Some "Bob" |}.

Definition lib_two_authors : LibraryRecord :=
  {| lib_filename := "foo-1.0.jar"; lib_name := "foo";
     lib_version := Some "1.0"; lib_sha1 := "abc123";
     lib_licenses := [lic_mit];
     lib_copyrightReferences := [cr_alice; cr_bob];
     lib_references := None |}.

Definition world_anonymous : World :=
  {| heap := [dd_mit_anonymous]; log := []; files := ∅; writes := [] |}.

(** Another build of the same file: the same file name as [lib_foo],
    another checksum and version. *)
Definition lib_foo_rebuilt : LibraryRecord :=
  {| lib_filename := "foo-1.0.jar"; lib_name := "foo";
     lib_version := Some "1.0-r2"; lib_sha1 := "0123ff";
     lib_licenses := [lic_mit];
     lib_copyrightReferences := [];
     lib_references := None |}.

Definition lib_baz : LibraryRecord :=
  {| lib_filename := "baz.whl"; lib_name := "baz";
     lib_version := None; lib_sha1 := "77aa";
     lib_licenses := [lic_mit];
     lib_copyrightReferences := [cr_alice];
     lib_references := Some {[ "url" := "https://example.org/baz" ]} |}.

Definition dd_baz : DueDiligenceEntry :=
  {| dd_library := "baz.whl"; dd_name := "MIT"; dd_author := None |}.

Definition world_two : World :=
  {| heap := [dd_acme; dd_baz]; log := []; files := ∅; writes := [] |}.

Definition args_all : Args :=
  {| arg_type := "all"; extra := "sbom_extra.json"; out_dir := "output";
     extra_conf := ∅ |}.

Definition conn_two : ScopeData :=
  {| scope_type := "project"; scope_short_name := "demo";
     scope_name := "demo"; conn_name := "Org";
     due_diligence := [dd_acme; dd_baz];
     licenses_report := [lib_foo; lib_baz] |}.

(** A report of three libraries of which the second has no license. *)
Definition world_three : World :=
  {| heap := [dd_acme; dd_baz]; log := []; files := ∅; writes := [] |}.

(** A scope whose report contains a library without license. *)
Definition conn_bare : ScopeData :=
  {| scope_type := "project"; scope_short_name := "bare";
     scope_name := "bare"; conn_name := "Org";
     due_diligence := [dd_acme];
     licenses_report := [lib_foo; lib_bare] |}.

Definition args_tv : Args :=
  {| arg_type := "tv"; extra := "sbom_extra.json"; out_dir := "output";
     extra_conf := ∅ |}.

(** An organisation with two projects. *)
Definition ws_two : Connection :=
  {| get_projects := ["t1"; "t2"];
     scope_data := fun token =>
       if String.eqb token "t2" then conn_two
       else {| scope_type := "project"; scope_short_name := "first";
               scope_name := "first"; conn_name := "Org";
               due_diligence := [dd_acme];
               licenses_report := [lib_foo] |} |}.

Definition ws_none : Connection :=
  {| get_projects := []; scope_data := fun _ => conn_two |}.

(** A writer that refuses documents without packages or creators and
    writes every other document. *)
Definition strict_writer (path : string) (t : SPDXFileType) (doc : Document)
  : option PyExc :=
  match packages doc, creators (creation_info doc) with
  | [], _ => Some InvalidDocumentError
  | _, [] => Some InvalidDocumentError
  | _, _ => None
  end.

Definition doc_empty : Document :=
  {| doc_name := "d"; doc_namespace := "ns";
     document_spdx_id := "SPDXRef-DOCUMENT";
     doc_version := {| major := 2; minor := 2 |}; data_license := "CC0-1.0";
     creation_info := {| creators := [] |}; packages := []; relationships := [] |}.



End Examples.

(** * Properties *)

(** ** [rstrip] *)

Lemma append_empty_l (s : string) : EmptyString +:+ s = s.
Proof. reflexivity. Qed.

Lemma append_String (a : ascii) (s t : string) :
  String a s +:+ t = String a (s +:+ t).
Proof. reflexivity. Qed.

Lemma rstrip_decompose (c : ascii) (s : string) :
  exists k, s = rstrip c s +:+ repeat_char c k.
Proof.
  induction s as [|a s [k IH]].
  - exists 0. reflexivity.
  - simpl. destruct (rstrip c s) as [|b r] eqn:E.
    + rewrite append_empty_l in IH. destruct (Ascii.eqb_spec a c) as [->|_].
      * exists (S k). rewrite append_empty_l. simpl. f_equal. exact IH.
      * exists k. rewrite !append_String, append_empty_l. f_equal. exact IH.
    + exists k. rewrite append_String. f_equal. exact IH.
Qed.

Lemma rstrip_no_trailing (c : ascii) (s : string) :
  endswith c (rstrip c s) = false.
Proof.
  induction s as [|a s IH]; [reflexivity|].
  simpl. destruct (rstrip c s) as [|b r] eqn:E.
  - destruct (Ascii.eqb_spec a c) as [->|Hne]; simpl; [reflexivity|].
    apply Ascii.eqb_neq. exact Hne.
  - exact IH.
Qed.

Lemma rstrip_idemp (c : ascii) (s : string) :
  rstrip c (rstrip c s) = rstrip c s.
Proof.
  induction s as [|a s IH]; [reflexivity|].
  simpl. destruct (rstrip c s) as [|b r] eqn:E.
  - destruct (Ascii.eqb a c) eqn:Ea; simpl; [reflexivity|].
    rewrite Ea. reflexivity.
  - change (rstrip c (String a (String b r)))
      with (match rstrip c (String b r) with
            | EmptyString => if Ascii.eqb a c then EmptyString else String a EmptyString
            | r0 => String a r0
            end).
    rewrite IH. reflexivity.
Qed.

Lemma strip_library_idemp (d : DueDiligenceEntry) :
  strip_library (strip_library d) = strip_library d.
Proof. unfold strip_library. simpl. rewrite rstrip_idemp. reflexivity. Qed.

(** ** Computations that leave the store alone *)


Lemma keeps_heap_ret {A} (a : A) : keeps_heap (ret a).
Proof. intros w. reflexivity. Qed.

Lemma keeps_heap_raise {A} (e : PyExc) : keeps_heap (@raise A e).
Proof. intros w. reflexivity. Qed.

Lemma keeps_heap_logging lv msg : keeps_heap (logging lv msg).
Proof. intros w. reflexivity. Qed.

Lemma keeps_heap_deref l : keeps_heap (deref l).
Proof. intros w. unfold deref. destruct (heap w !! l); reflexivity. Qed.

Lemma keeps_heap_bind {A B} (m : Py A) (k : A -> Py B) :
  keeps_heap m -> (forall a, keeps_heap (k a)) -> keeps_heap (bind m k).
Proof.
  intros Hm Hk w. unfold bind. specialize (Hm w).
  destruct (m w) as [w1 [a|e]]; simpl in *.
  - rewrite Hk. exact Hm.
  - exact Hm.
Qed.

Ltac keeps_step :=
  first
    [ apply keeps_heap_bind; [|intros ?]
    | apply keeps_heap_ret
    | apply keeps_heap_raise
    | apply keeps_heap_logging
    | apply keeps_heap_deref
    | match goal with
      | |- keeps_heap (match ?x with _ => _ end) => destruct x
      | |- keeps_heap (if ?x then _ else _) => destruct x
      | |- keeps_heap (let (_, _) := ?x in _) => destruct x
      end ].

Lemma keeps_heap_get_author_from_cr crs : keeps_heap (get_author_from_cr crs).
Proof. unfold get_author_from_cr. repeat keeps_step. Qed.

Lemma keeps_heap_create_package lib dd_dict :
  keeps_heap (create_package lib dd_dict).
Proof.
  unfold create_package.
  repeat (keeps_step || apply keeps_heap_get_author_from_cr).
Qed.

Lemma keeps_heap_create_packages_loop libs dd_dict pkgs ids :
  keeps_heap (create_packages_loop libs dd_dict pkgs ids).
Proof.
  revert pkgs ids. induction libs as [|lib libs IH]; intros pkgs ids; simpl.
  - apply keeps_heap_ret.
  - apply keeps_heap_bind; [apply keeps_heap_create_package|].
    intros [pkg id]. apply IH.
Qed.

(** ** The normalisation loop of [create_packages] *)


Lemma for_each_store_stripped (due_dil : list loc) (w : World) :
  for_each due_dil store_stripped w =
  ({| heap := stripped_heap (heap w) due_dil;
      log := log w; files := files w; writes := writes w |}, Return tt).
Proof.
  revert w. induction due_dil as [|l ls IH]; intros w.
  - destruct w. reflexivity.
  - simpl. unfold bind. simpl. rewrite IH. reflexivity.
Qed.

Lemma stripped_heap_lookup (due_dil : list loc) (h : list DueDiligenceEntry) (i : loc) :
  stripped_heap h due_dil !! i =
  if decide (i ∈ due_dil) then strip_library <$> h !! i else h !! i.
Proof.
  revert h. induction due_dil as [|l ls IH]; intros h.
  - unfold stripped_heap. cbn [foldl].
    rewrite decide_False by apply not_elem_of_nil. reflexivity.
  - unfold stripped_heap in *. cbn [foldl]. rewrite IH.
    destruct (decide (i = l)) as [Heq|Hne].
    + subst i. rewrite list_lookup_alter_eq.
      rewrite (decide_True (P := l ∈ l :: ls))
        by (apply elem_of_cons; left; reflexivity).
      destruct (decide (l ∈ ls)); [|reflexivity].
      destruct (h !! l) as [d|]; simpl; [|reflexivity].
      rewrite strip_library_idemp. reflexivity.
    + rewrite list_lookup_alter_ne by congruence.
      destruct (decide (i ∈ ls)) as [H1|H1].
      * rewrite decide_True by (apply elem_of_cons; right; exact H1).
        reflexivity.
      * rewrite decide_False; [reflexivity|].
        intros H2. apply elem_of_cons in H2 as [H2|H2]; [congruence|exact (H1 H2)].
Qed.

Lemma create_packages_heap (libs : list LibraryRecord) (due_dil : list loc) (w : World) :
  heap (create_packages libs due_dil w).1 = stripped_heap (heap w) due_dil.
Proof.
  unfold create_packages.
  unfold bind at 1. simpl.
  unfold bind at 1. rewrite for_each_store_stripped.
  set (w1 := {| heap := _ |}).
  change (stripped_heap (heap w) due_dil) with (heap w1).
  apply (keeps_heap_bind _ _).
  - intros w2. reflexivity.
  - intros dd_dict. apply keeps_heap_bind.
    + apply keeps_heap_create_packages_loop.
    + intros [pkgs ids]. repeat keeps_step.
Qed.

(** ** Due-diligence entries are rewritten in place *)

(** Entries that [due_dil] does not reference, and the size of the store,
    are left as they were. *)
Lemma create_packages_heap_frame libs due_dil w (l : loc) :
  l ∉ due_dil ->
  heap (create_packages libs due_dil w).1 !! l = heap w !! l.
Proof.
  intros Hl. rewrite create_packages_heap, stripped_heap_lookup.
  rewrite decide_False by exact Hl. reflexivity.
Qed.

(** C10: [create_packages] updates the caller's due-diligence dictionaries in
    place.  Whatever the call returns or raises, every dictionary referenced
    by [due_dil] has afterwards, as its ['library'], the old value without its
    trailing ['*'] characters (the old value is the new one followed by some
    number of ['*'], and the new one does not end in ['*']); its other keys
    are unchanged; and when the old value did end in ['*'] the store the
    caller sees has changed. *)
Theorem create_packages_mutates_due_diligence
    (libs : list LibraryRecord) (due_dil : list loc) (w : World)
    (l : loc) (d : DueDiligenceEntry) :
  l ∈ due_dil ->
  heap w !! l = Some d ->
  exists d',
    heap (create_packages libs due_dil w).1 !! l = Some d'
    /\ dd_library d' = rstrip "*" (dd_library d)
    /\ (exists k, dd_library d = dd_library d' +:+ repeat_char "*" k)
    /\ endswith "*" (dd_library d') = false
    /\ dd_name d' = dd_name d
    /\ dd_author d' = dd_author d
    /\ (endswith "*" (dd_library d) = true ->
        heap (create_packages libs due_dil w).1 <> heap w).
Proof.
  intros Hin Hd. exists (strip_library d).
  assert (Hl : heap (create_packages libs due_dil w).1 !! l = Some (strip_library d)).
  { rewrite create_packages_heap, stripped_heap_lookup.
    rewrite decide_True by exact Hin. rewrite Hd. reflexivity. }
  split; [exact Hl|].
  split; [reflexivity|].
  split; [apply rstrip_decompose|].
  split; [apply rstrip_no_trailing|].
  split; [reflexivity|].
  split; [reflexivity|].
  intros Hend Heq. rewrite Heq, Hd in Hl.
  injection Hl as Hl. rewrite Hl in Hend.
  simpl in Hend. rewrite rstrip_no_trailing in Hend. discriminate.
Qed.


Lemma create_packages_mutates_due_diligence_witness :
  exists d',
    heap (create_packages [Examples.lib_foo] [0] Examples.world_acme).1 !! 0 = Some d'
    /\ dd_library d' = "foo-1.0.jar"
    /\ heap (create_packages [Examples.lib_foo] [0] Examples.world_acme).1
       <> heap Examples.world_acme.
Proof.
  destruct (create_packages_mutates_due_diligence
              [Examples.lib_foo] [0] Examples.world_acme 0 Examples.dd_acme)
    as (d' & H1 & H2 & _ & _ & _ & _ & H7).
  - apply elem_of_cons. left. reflexivity.
  - reflexivity.
  - exists d'. split; [exact H1|]. split; [exact H2|]. apply H7. reflexivity.
Defined.

(** ** [create_package] *)

Ltac py_unfold :=
  unfold create_package, get_author_from_cr, bind, logging, ret, raise, deref.

(** Where [create_package] raises (lines 111-113).  With no license entry
    the local [author] is read before it is bound; with a first key that has
    no due-diligence entry, [.get] is called on [None]. *)
Lemma create_package_no_license lib dd_dict w :
  lib_licenses lib = [] ->
  create_package lib dd_dict w =
  ({| heap := heap w;
      log := log w ++ [{| level := DEBUG;
                          message := "Creating Package SPDXRef-PACKAGE-"
                                     +:+ lib_filename lib |}];
      files := files w; writes := writes w |},
   Raise (UnboundLocalError "author")).
Proof. intros H. py_unfold. rewrite H. reflexivity. Qed.

Lemma create_package_first_key_unmatched lib dd_dict w lic0 rest :
  lib_licenses lib = lic0 :: rest ->
  dd_dict !! (lib_filename lib, lic_name lic0) = None ->
  create_package lib dd_dict w =
  ({| heap := heap w;
      log := log w ++ [{| level := DEBUG;
                          message := "Creating Package SPDXRef-PACKAGE-"
                                     +:+ lib_filename lib |}];
      files := files w; writes := writes w |},
   Raise (AttributeError "'NoneType' object has no attribute 'get'")).
Proof. intros H1 H2. py_unfold. rewrite H1. simpl. rewrite H2. reflexivity. Qed.

Lemma create_package_dangling lib dd_dict w lic0 rest l :
  lib_licenses lib = lic0 :: rest ->
  dd_dict !! (lib_filename lib, lic_name lic0) = Some l ->
  heap w !! l = None ->
  (create_package lib dd_dict w).2 = Raise DanglingReference.
Proof.
  intros H1 H2 H3. py_unfold. rewrite H1. simpl. rewrite H2. simpl. rewrite H3.
  reflexivity.
Qed.

(** *** Stepping through a computation *)

Lemma bind_logging {B} lv msg (k : unit -> Py B) w :
  bind (logging lv msg) k w = k tt (logged w [{| level := lv; message := msg |}]).
Proof. reflexivity. Qed.

Lemma bind_ret {A B} (a : A) (k : A -> Py B) w : bind (ret a) k w = k a w.
Proof. reflexivity. Qed.

Lemma bind_returns {A B} (m : Py A) (k : A -> Py B) w a recs :
  m w = (logged w recs, Return a) -> bind m k w = k a (logged w recs).
Proof. intros H. unfold bind. rewrite H. reflexivity. Qed.

Lemma logged_logged w r1 r2 : logged (logged w r1) r2 = logged w (r1 ++ r2).
Proof. unfold logged. simpl. rewrite app_assoc. reflexivity. Qed.

Lemma logged_nil w : logged w [] = w.
Proof. destruct w. unfold logged. simpl. rewrite app_nil_r. reflexivity. Qed.

Lemma ret_eval {A} (a : A) w : ret a w = (logged w [], Return a).
Proof. rewrite logged_nil. reflexivity. Qed.

(** [get_author_from_cr] only logs, and returns the last of the non-empty
    authors. *)
Lemma get_author_from_cr_eval crs w :
  exists recs,
    get_author_from_cr crs w =
    (logged w recs,
     Return (match cr_authors crs with [] => None | _ => last (cr_authors crs) end)).
Proof.
  unfold get_author_from_cr.
  destruct (1 <? length (cr_authors crs))%nat.
  - rewrite bind_logging. eexists. reflexivity.
  - destruct (bool_decide (cr_authors crs = [])).
    + rewrite bind_logging. eexists. reflexivity.
    + rewrite bind_ret. exists []. rewrite logged_nil. reflexivity.
Qed.

(** One step of a computation whose head logs and returns [v]. *)
Ltac py_step v tac :=
  match goal with
  | |- exists _, bind ?m ?k ?W = _ /\ _ =>
      let H := fresh "Hstep" in
      let r := fresh "recs" in
      assert (exists recs, m W = (logged W recs, Return v)) as [r H] by tac;
      rewrite (bind_returns m k W v r H); clear H; cbv beta;
      rewrite ?logged_logged
  end.

(** When the first key of the library has a due-diligence entry,
    [create_package] logs and returns [package_of]. *)
Lemma create_package_eval lib dd_dict w lic0 rest l d :
  lib_licenses lib = lic0 :: rest ->
  dd_dict !! (lib_filename lib, lic_name lic0) = Some l ->
  heap w !! l = Some d ->
  exists recs,
    create_package lib dd_dict w =
      (logged w recs, Return (package_of lib (dd_author d), package_id lib))
    /\ ((1 < length (lib_licenses lib))%nat -> many_licenses_warning lib ∈ recs).
Proof.
  intros H1 H2 H3. unfold create_package. cbv zeta.
  rewrite bind_logging.
  py_step (Some (dd_author d))
    ltac:(exists []; rewrite logged_nil, H1; cbn [map]; rewrite H2;
          unfold bind, deref, ret; cbn [heap logged]; rewrite H3; reflexivity).
  py_step (resolved_author (dd_author d) (lib_copyrightReferences lib))
    ltac:(unfold resolved_author; destruct (truthy (dd_author d)); cbn [negb];
          [ eexists; apply ret_eval
          | rewrite bind_logging;
            match goal with
            | |- context [get_author_from_cr ?c ?W0] =>
                destruct (get_author_from_cr_eval c W0) as [r0 ->]
            end;
            rewrite logged_logged; eexists; reflexivity ]).
  py_step (originator_of (resolved_author (dd_author d) (lib_copyrightReferences lib)))
    ltac:(unfold originator_of;
          destruct (resolved_author (dd_author d) (lib_copyrightReferences lib))
            as [a|] eqn:Ea;
          [ destruct (truthy (Some a));
            [ eexists; apply ret_eval
            | rewrite bind_logging; eexists; reflexivity ]
          | rewrite bind_logging; eexists; reflexivity ]).
  py_step (cr_text (package_of lib (dd_author d)))
    ltac:(unfold package_of; cbn [cr_text];
          destruct (map cr_copyright (lib_copyrightReferences lib));
          [ rewrite bind_logging; eexists; reflexivity
          | eexists; apply ret_eval ]).
  py_step tt
    ltac:(match goal with
          | |- context [if ?c then _ else _] => destruct c
          end; [ eexists; reflexivity | eexists; apply ret_eval ]).
  match goal with
  | |- exists _, bind ?m ?k ?W = _ /\ _ =>
      assert (exists recs, m W = (logged W recs, Return tt)
                /\ ((1 < length (lib_licenses lib))%nat ->
                    many_licenses_warning lib ∈ recs)) as (recsL & Hstep & HL)
  end.
  { rewrite length_map.
    destruct (1 <? length (lib_licenses lib))%nat eqn:E.
    - eexists. split; [reflexivity|]. intros _.
      apply list_elem_of_singleton. reflexivity.
    - exists []. split; [apply ret_eval|]. intros Hlt.
      apply Nat.ltb_ge in E. lia. }
  rewrite (bind_returns _ _ _ _ _ Hstep). clear Hstep. cbv beta.
  rewrite ?logged_logged.
  py_step (license_declared (package_of lib (dd_author d)))
    ltac:(unfold package_of, licenses_of; cbn [license_declared];
          destruct (map _ (lib_licenses lib));
          [ rewrite bind_logging; eexists; reflexivity
          | eexists; apply ret_eval ]).
  rewrite bind_logging, logged_logged. unfold ret.
  eexists. split.
  - f_equal. f_equal. f_equal.
    unfold package_of, download_location_of, licenses_of, package_id.
    destruct (lib_references lib); reflexivity.
  - intros Hlt. specialize (HL Hlt). rewrite !elem_of_app. tauto.
Qed.

(** What is known of a package that [create_package] returns. *)
Lemma create_package_Return lib dd_dict w w' pkg id :
  create_package lib dd_dict w = (w', Return (pkg, id)) ->
  exists lic0 rest l d,
    lib_licenses lib = lic0 :: rest
    /\ dd_dict !! (lib_filename lib, lic_name lic0) = Some l
    /\ heap w !! l = Some d
    /\ pkg = package_of lib (dd_author d)
    /\ id = package_id lib.
Proof.
  intros H.
  destruct (lib_licenses lib) as [|lic0 rest] eqn:H1.
  { rewrite create_package_no_license in H by exact H1. discriminate. }
  destruct (dd_dict !! (lib_filename lib, lic_name lic0)) as [l|] eqn:H2.
  2:{ rewrite (create_package_first_key_unmatched _ _ _ _ _ H1 H2) in H.
      discriminate. }
  destruct (heap w !! l) as [d|] eqn:H3.
  2:{ pose proof (create_package_dangling _ _ _ _ _ _ H1 H2 H3) as Hd.
      rewrite H in Hd. discriminate. }
  destruct (create_package_eval _ _ _ _ _ _ _ H1 H2 H3) as (recs & Heq & _).
  rewrite Heq in H. injection H as _ <- <-.
  exists lic0, rest, l, d. auto.
Qed.

Lemma create_package_returns lib dd_dict w lic0 rest l d :
  lib_licenses lib = lic0 :: rest ->
  dd_dict !! (lib_filename lib, lic_name lic0) = Some l ->
  heap w !! l = Some d ->
  exists w' pkg id, create_package lib dd_dict w = (w', Return (pkg, id)).
Proof.
  intros H1 H2 H3.
  destruct (create_package_eval _ _ _ _ _ _ _ H1 H2 H3) as (recs & Heq & _).
  eauto.
Qed.
(** C1: the author step of [create_package] is not total.  On a library
    without license entries the run stops with [UnboundLocalError], and on a
    library whose first key has no due-diligence entry while its second key
    has one it stops with [AttributeError]; no author and no failure
    indicator is returned. *)
Theorem author_resolution_raises :
  create_package Examples.lib_bare ∅ Examples.empty_world =
    (logged Examples.empty_world
       [{| level := DEBUG;
           message := "Creating Package SPDXRef-PACKAGE-bar-2.0.zip" |}],
     Raise (UnboundLocalError "author"))
  /\ create_packages [Examples.lib_foo] [0] Examples.world_apache =
     (logged Examples.world_apache
        [{| level := DEBUG; message := "Creating Packages entity" |};
         {| level := DEBUG;
            message := "Creating Package SPDXRef-PACKAGE-foo-1.0.jar" |}],
      Raise (AttributeError "'NoneType' object has no attribute 'get'")).
Proof. split; vm_compute; reflexivity. Qed.

(** C5: for a library with zero license entries [create_package] returns no
    package.  It stops at the read of the unbound local [author] (line 113),
    before the branch that logs "No license found" and selects the "none"
    marker (lines 148-150) is reached; the only log record added is the
    opening debug message. *)
Theorem create_package_zero_licenses_raises lib dd_dict w :
  lib_licenses lib = [] ->
  create_package lib dd_dict w =
  (logged w [{| level := DEBUG;
                message := "Creating Package SPDXRef-PACKAGE-" +:+ lib_filename lib |}],
   Raise (UnboundLocalError "author")).
Proof. intros H. rewrite create_package_no_license by exact H. reflexivity. Qed.

Lemma create_package_zero_licenses_raises_witness :
  lib_licenses Examples.lib_bare = []
  /\ (create_package Examples.lib_bare ∅ Examples.world_acme).2 =
     Raise (UnboundLocalError "author").
Proof.
  split; [reflexivity|].
  rewrite (create_package_zero_licenses_raises Examples.lib_bare ∅ Examples.world_acme)
    by reflexivity.
  reflexivity.
Defined.

(** ** The author taken from the copyright entries *)

(** [get_author_from_cr] returns the last of the non-empty authors. *)
Lemma get_author_from_cr_value crs w :
  (get_author_from_cr crs w).2 = Return (last (cr_authors crs)).
Proof.
  destruct (get_author_from_cr_eval crs w) as [recs ->]. simpl.
  destruct (cr_authors crs); reflexivity.
Qed.

(** C2: with two copyright authors, Alice before Bob, [get_author_from_cr]
    logs that it "Will return the 1st" and returns Bob, the last one
    ([authors.pop()]); the package built for such a library, whose
    due-diligence entry has no author, gets Bob as originator. *)
Theorem get_author_from_cr_returns_last_author :
  get_author_from_cr [Examples.cr_alice; Examples.cr_bob] Examples.empty_world =
    (logged Examples.empty_world
       [{| level := WARNING;
           message := "Found 2 authors on the lib. Will return the 1st" |}],
     Return (Some "Bob"))
  /\ exists w' pkg,
       create_packages [Examples.lib_two_authors] [0] Examples.world_anonymous =
         (w', Return ([pkg], ["SPDXRef-PACKAGE-foo-1.0.jar"]))
       /\ originator pkg = Value {| org_name := "Bob"; org_email := NoAssert |}.
Proof.
  split; [vm_compute; reflexivity|].
  eexists _, _. split; vm_compute; reflexivity.
Qed.

(** ** The author taken from the due-diligence data *)

(** C4 (as amended): when the first license-name key of a library has a
    due-diligence entry with a non-empty author, [create_package] returns a
    package whose originator (and supplier) is the organisation of that
    name, whatever the copyright entries of the library are. *)
Theorem create_package_first_key_author lib dd_dict w lic0 rest l d a :
  lib_licenses lib = lic0 :: rest ->
  dd_dict !! (lib_filename lib, lic_name lic0) = Some l ->
  heap w !! l = Some d ->
  dd_author d = Some a ->
  a <> EmptyString ->
  exists w' pkg id,
    create_package lib dd_dict w = (w', Return (pkg, id))
    /\ originator pkg = Value {| org_name := a; org_email := NoAssert |}
    /\ supplier pkg = Value {| org_name := a; org_email := NoAssert |}.
Proof.
  intros H1 H2 H3 H4 H5.
  destruct (create_package_eval _ _ _ _ _ _ _ H1 H2 H3) as (recs & Heq & _).
  eexists _, _, _. split; [exact Heq|].
  unfold package_of. cbn [originator supplier].
  unfold resolved_author. rewrite H4.
  destruct a as [|c a']; [congruence|].
  split; reflexivity.
Qed.

Lemma create_package_first_key_author_witness :
  exists w' pkg id,
    create_package
      {| lib_filename := "foo-1.0.jar"; lib_name := "foo";
         lib_version := None; lib_sha1 := "abc123";
         lib_licenses := [Examples.lic_mit; Examples.lic_apache];
         lib_copyrightReferences := [Examples.cr_alice];
         lib_references := None |}
      {[ ("foo-1.0.jar", "MIT") := 0 ]}
      {| heap := [{| dd_library := "foo-1.0.jar"; dd_name := "MIT";
                     dd_author := Some "Acme Corp" |}];
         log := []; files := ∅; writes := [] |} = (w', Return (pkg, id))
    /\ originator pkg = Value {| org_name := "Acme Corp"; org_email := NoAssert |}
    /\ supplier pkg = Value {| org_name := "Acme Corp"; org_email := NoAssert |}.
Proof.
  apply (create_package_first_key_author _ _ _
           Examples.lic_mit [Examples.lic_apache] 0
           {| dd_library := "foo-1.0.jar"; dd_name := "MIT";
              dd_author := Some "Acme Corp" |} "Acme Corp").
  - reflexivity.
  - vm_compute. reflexivity.
  - reflexivity.
  - reflexivity.
  - discriminate.
Defined.

(** C4 as stated fails: the first key of [lib_foo] has an entry without
    author, its second key an entry with author "Acme Corp"; only the first
    entry is consulted and the originator stays "no assertion". *)
Lemma later_due_diligence_author_ignored :
  ~ (forall lib dd_dict w a,
       spec_dd_author lib dd_dict (heap w) = Some a ->
       exists w' pkg id,
         create_package lib dd_dict w = (w', Return (pkg, id))
         /\ originator pkg = Value {| org_name := a; org_email := NoAssert |}).
Proof.
  intros H.
  destruct (H Examples.lib_foo
              (convert_dict_list_to_dict (heap Examples.world_second_author) [0; 1])
              Examples.world_second_author "Acme Corp")
    as (w' & pkg & id & Hrun & Horig).
  - vm_compute. reflexivity.
  - vm_compute in Hrun. injection Hrun as _ Hpkg _. subst pkg.
    simpl in Horig. discriminate.
Qed.

(** ** Package identifiers *)

Lemma append_inj_r (p a b : string) : p +:+ a = p +:+ b -> a = b.
Proof.
  induction p as [|c p IH]; intros H.
  - exact H.
  - rewrite !append_String in H. injection H as H. apply IH. exact H.
Qed.

Lemma package_id_inj lib1 lib2 :
  package_id lib1 = package_id lib2 <-> lib_filename lib1 = lib_filename lib2.
Proof.
  unfold package_id. split.
  - apply append_inj_r.
  - intros ->. reflexivity.
Qed.

Lemma create_packages_loop_Return libs dd_dict pkgs0 ids0 w w' pkgs ids :
  create_packages_loop libs dd_dict pkgs0 ids0 w = (w', Return (pkgs, ids)) ->
  exists pkgs1,
    pkgs = pkgs0 ++ pkgs1
    /\ ids = ids0 ++ map package_id libs
    /\ map spdx_id pkgs1 = map package_id libs.
Proof.
  revert pkgs0 ids0 w. induction libs as [|lib libs IH]; intros pkgs0 ids0 w H.
  - injection H as _ <- <-. exists []. rewrite !app_nil_r. auto.
  - simpl in H. unfold bind in H.
    destruct (create_package lib dd_dict w) as [w1 [[pkg id]|e]] eqn:Hpkg;
      [|discriminate].
    apply create_package_Return in Hpkg as (? & ? & ? & d & _ & _ & _ & -> & ->).
    apply IH in H as (pkgs1 & -> & -> & Hmap).
    exists (package_of lib (dd_author d) :: pkgs1). rewrite <- !app_assoc.
    cbn [map app]. rewrite Hmap. auto.
Qed.

Lemma create_packages_Return libs due_dil w w' pkgs ids :
  create_packages libs due_dil w = (w', Return (pkgs, ids)) ->
  ids = map package_id libs /\ map spdx_id pkgs = ids.
Proof.
  unfold create_packages. unfold bind at 1. simpl.
  unfold bind at 1. rewrite for_each_store_stripped.
  unfold bind at 1. unfold bind at 1.
  match goal with
  | |- context [create_packages_loop ?l ?d ?p ?i ?w0] =>
      destruct (create_packages_loop l d p i w0) as [w1 [[pkgs1 ids1]|e]] eqn:Hloop
  end; [|discriminate].
  apply create_packages_loop_Return in Hloop as (pkgs2 & -> & -> & Hmap).
  unfold bind, logging, ret. simpl. intros H. injection H as _ <- <-.
  simpl. auto.
Qed.

(** C7 (as amended): the identifiers that [create_packages] returns are, in
    order, ["SPDXRef-PACKAGE-"] followed by the file name of each library
    (and are the [spdx_id]s of the packages); two libraries of the document
    get the same identifier exactly when they have the same file name, so
    libraries with different file names get different identifiers. *)
Theorem package_ids_follow_filenames libs due_dil w w' pkgs ids :
  create_packages libs due_dil w = (w', Return (pkgs, ids)) ->
  ids = map (fun lib => "SPDXRef-PACKAGE-" +:+ lib_filename lib) libs
  /\ map spdx_id pkgs = ids
  /\ forall i j libi libj idi idj,
       libs !! i = Some libi -> libs !! j = Some libj ->
       ids !! i = Some idi -> ids !! j = Some idj ->
       (idi = idj <-> lib_filename libi = lib_filename libj).
Proof.
  intros H. apply create_packages_Return in H as [Hids Hs].
  split; [exact Hids|]. split; [exact Hs|].
  intros i j libi libj idi idj Hi Hj Hii Hjj. subst ids.
  rewrite list_lookup_fmap, Hi in Hii. rewrite list_lookup_fmap, Hj in Hjj.
  simpl in Hii, Hjj. injection Hii as <-. injection Hjj as <-.
  apply package_id_inj.
Qed.

Lemma package_ids_follow_filenames_witness :
  exists w' pkgs,
    create_packages [Examples.lib_foo; Examples.lib_baz] [0; 1] Examples.world_two =
      (w', Return (pkgs, ["SPDXRef-PACKAGE-foo-1.0.jar"; "SPDXRef-PACKAGE-baz.whl"]))
    /\ map spdx_id pkgs = ["SPDXRef-PACKAGE-foo-1.0.jar"; "SPDXRef-PACKAGE-baz.whl"].
Proof.
  destruct (create_packages [Examples.lib_foo; Examples.lib_baz] [0; 1]
              Examples.world_two) as [w' [[pkgs ids]|e]] eqn:Hrun;
    [|vm_compute in Hrun; discriminate].
  destruct (package_ids_follow_filenames _ _ _ _ _ _ Hrun) as (Hids & Hs & _).
  exists w', pkgs. rewrite Hs. rewrite Hids. split; reflexivity.
Defined.

(** C7 as stated fails: two different library records of one document that
    carry the same file name get the same package identifier. *)
Lemma same_filename_same_package_id :
  ~ (forall libs due_dil w w' pkgs ids i j libi libj idi idj,
       create_packages libs due_dil w = (w', Return (pkgs, ids)) ->
       libs !! i = Some libi -> libs !! j = Some libj ->
       libi <> libj ->
       ids !! i = Some idi -> ids !! j = Some idj ->
       idi <> idj).
Proof.
  intros H.
  destruct (create_packages [Examples.lib_foo; Examples.lib_foo_rebuilt] [0]
              Examples.world_acme) as [w' [[pkgs ids]|e]] eqn:Hrun;
    [|vm_compute in Hrun; discriminate].
  assert (Hids : ids = ["SPDXRef-PACKAGE-foo-1.0.jar"; "SPDXRef-PACKAGE-foo-1.0.jar"]).
  { vm_compute in Hrun. injection Hrun as _ _ <-. reflexivity. }
  apply (H _ _ _ _ _ _ 0 1 Examples.lib_foo Examples.lib_foo_rebuilt
           "SPDXRef-PACKAGE-foo-1.0.jar" "SPDXRef-PACKAGE-foo-1.0.jar" Hrun).
  - reflexivity.
  - reflexivity.
  - discriminate.
  - rewrite Hids. reflexivity.
  - rewrite Hids. reflexivity.
  - reflexivity.
Qed.

(** ** Relationships of the assembled document *)

Lemma foldl_snoc_map {A B} (f : A -> B) (l : list A) (acc : list B) :
  foldl (fun rels x => rels ++ [f x]) acc l = acc ++ map f l.
Proof.
  revert acc. induction l as [|x l IH]; intros acc; simpl.
  - rewrite app_nil_r. reflexivity.
  - rewrite IH, <- app_assoc. reflexivity.
Qed.

Lemma assemble_sbom_doc_Return args conn w w' doc :
  assemble_sbom_doc args conn w = (w', Return doc) ->
  exists w1 w2 ids,
    create_packages (licenses_report conn)
      (seq (length (heap w)) (length (due_diligence conn))) w1
      = (w2, Return (packages doc, ids))
    /\ relationships doc = map described_by ids
    /\ document_spdx_id doc = "SPDXRef-DOCUMENT"
    /\ doc_name doc = "WhiteSource " +:+ scope_name conn +:+ " SBOM report"
    /\ doc_namespace doc =
         default "http://[CreatorWebsite]/[pathToSpdx]/[DocumentName]-[UUID]"
                 (extra_conf args !! "namespace")
    /\ creators (creation_info doc) =
         [CreatorOrganization (conn_name conn)
            (default "ORG_EMAIL" (extra_conf args !! "org_email"));
          CreatorTool "White Source SBOM Report Generator";
          CreatorPerson (default "PERSON" (extra_conf args !! "person"))
            (default "PERSON_EMAIL" (extra_conf args !! "person_email"))].
Proof.
  unfold assemble_sbom_doc, create_document, create_creation_info, alloc_dicts.
  unfold bind, logging, ret. simpl.
  match goal with
  | |- context [create_packages ?l ?d ?w0] =>
      destruct (create_packages l d w0) as [w2 [[pkgs ids]|e]] eqn:Hrun
  end; [|discriminate].
  intros H. injection H as _ <-. simpl.
  eexists _, w2, ids. split; [exact Hrun|].
  split; [apply (foldl_snoc_map described_by ids [])|].
  repeat split; reflexivity.
Qed.

(** C8: in every document that [create_sbom_doc] assembles, the document
    identifier is the fixed ["SPDXRef-DOCUMENT"] and the relationship list
    is the package list mapped, position by position, to
    ["<package id> DESCRIBED_BY SPDXRef-DOCUMENT"]: as many relationships as
    packages, the i-th relationship being the one of the i-th package. *)
Theorem relationships_mirror_packages args conn w w' doc :
  assemble_sbom_doc args conn w = (w', Return doc) ->
  document_spdx_id doc = "SPDXRef-DOCUMENT"
  /\ relationships doc =
       map (fun pkg => {| relationship :=
                            spdx_id pkg +:+ " DESCRIBED_BY " +:+ document_spdx_id doc |})
           (packages doc)
  /\ length (relationships doc) = length (packages doc)
  /\ forall i pkg,
       packages doc !! i = Some pkg ->
       relationships doc !! i =
         Some {| relationship := spdx_id pkg +:+ " DESCRIBED_BY SPDXRef-DOCUMENT" |}.
Proof.
  intros H. apply assemble_sbom_doc_Return in H
    as (w1 & w2 & ids & Hrun & Hrel & Hid & _).
  apply create_packages_Return in Hrun as [_ Hs].
  assert (Hmap : relationships doc =
                 map (fun pkg => described_by (spdx_id pkg)) (packages doc)).
  { rewrite Hrel, <- Hs, map_map. reflexivity. }
  split; [exact Hid|]. split; [rewrite Hid; exact Hmap|].
  split; [rewrite Hmap; apply length_map|].
  intros i pkg Hi. rewrite Hmap.
  change (map (fun pkg => described_by (spdx_id pkg)) (packages doc))
    with ((fun pkg => described_by (spdx_id pkg)) <$> packages doc).
  rewrite list_lookup_fmap, Hi. reflexivity.
Qed.

Lemma relationships_mirror_packages_witness :
  exists w' doc,
    assemble_sbom_doc Examples.args_all Examples.conn_two Examples.empty_world
      = (w', Return doc)
    /\ map spdx_id (packages doc) =
         ["SPDXRef-PACKAGE-foo-1.0.jar"; "SPDXRef-PACKAGE-baz.whl"]
    /\ relationships doc =
         [{| relationship := "SPDXRef-PACKAGE-foo-1.0.jar DESCRIBED_BY SPDXRef-DOCUMENT" |};
          {| relationship := "SPDXRef-PACKAGE-baz.whl DESCRIBED_BY SPDXRef-DOCUMENT" |}].
Proof.
  destruct (assemble_sbom_doc Examples.args_all Examples.conn_two Examples.empty_world)
    as [w' [doc|e]] eqn:Hrun; [|vm_compute in Hrun; discriminate].
  destruct (relationships_mirror_packages _ _ _ _ _ Hrun) as (_ & Hrel & _).
  assert (Hp : map spdx_id (packages doc) =
               ["SPDXRef-PACKAGE-foo-1.0.jar"; "SPDXRef-PACKAGE-baz.whl"]).
  { vm_compute in Hrun. injection Hrun as _ <-. reflexivity. }
  exists w', doc. split; [reflexivity|]. split; [exact Hp|].
  rewrite Hrel. vm_compute in Hrun. injection Hrun as _ <-. reflexivity.
Defined.

(** ** Licenses of a package *)

(** When the first key of a library with several license entries has a
    due-diligence entry, the package is built: its declared and concluded
    license are the first entry, every entry is kept in
    [licenses_from_files], and the warning that names the library and the
    count is logged. *)
Lemma create_package_many_licenses lib dd_dict w lic0 lic1 rest l d :
  lib_licenses lib = lic0 :: lic1 :: rest ->
  dd_dict !! (lib_filename lib, lic_name lic0) = Some l ->
  heap w !! l = Some d ->
  exists w' pkg id,
    create_package lib dd_dict w = (w', Return (pkg, id))
    /\ license_declared pkg =
         Value {| full_name := lic_name lic0; identifier := lic_spdxName lic0 |}
    /\ conc_lics pkg =
         Value {| full_name := lic_name lic0; identifier := lic_spdxName lic0 |}
    /\ length (licenses_from_files pkg) = length (lib_licenses lib)
    /\ {| level := WARNING;
          message := "Library " +:+ lib_name lib +:+ " has "
                     +:+ str_of_nat (length (lib_licenses lib))
                     +:+ " licenses. Using the 1st one" |} ∈ log w'.
Proof.
  intros H1 H2 H3.
  destruct (create_package_eval _ _ _ _ _ _ _ H1 H2 H3) as (recs & Heq & Hwarn).
  eexists _, _, _. split; [exact Heq|].
  unfold package_of, licenses_of.
  cbn [license_declared conc_lics licenses_from_files].
  rewrite length_map, H1. cbn [map].
  split; [reflexivity|]. split; [reflexivity|]. split; [reflexivity|].
  cbn [logged log]. apply elem_of_app. right.
  rewrite <- H1. apply Hwarn. rewrite H1. simpl. lia.
Qed.

(** C6: the scenario of the specification.  The library [foo-1.0.jar] has
    the two license entries MIT and Apache-2.0 and no due-diligence entry.
    The run stops with [AttributeError] at line 112: no package is returned
    and the warning about the two licenses is never logged. *)
Theorem create_packages_unmatched_library_raises :
  create_packages [Examples.lib_foo] [] Examples.empty_world =
  (logged Examples.empty_world
     [{| level := DEBUG; message := "Creating Packages entity" |};
      {| level := DEBUG; message := "Creating Package SPDXRef-PACKAGE-foo-1.0.jar" |}],
   Raise (AttributeError "'NoneType' object has no attribute 'get'")).
Proof. vm_compute. reflexivity. Qed.

(** ** Report files *)

Lemma replace_char_append c (a b : string) :
  replace_char c (a +:+ b) = replace_char c a +:+ replace_char c b.
Proof.
  induction a as [|x a IH]; [reflexivity|].
  rewrite append_String. simpl. rewrite append_String, IH. reflexivity.
Qed.

(** The replacement acts on each character by itself, so the name before the
    suffix is fixed in the same way for every file type. *)
Lemma fixed_filename_append INV (a b : string) :
  fixed_filename INV (a +:+ b) = fixed_filename INV a +:+ fixed_filename INV b.
Proof.
  unfold fixed_filename. revert a b.
  induction INV as [|c INV IH]; intros a b; simpl; [reflexivity|].
  rewrite replace_char_append. apply IH.
Qed.

(** [write_file] when the report is written, and when the write raises. *)
Lemma write_file_eval INV vs wf args doc w f_type t :
  get_file_type f_type = ret t ->
  wf (report_path INV vs args doc t) t doc = None ->
  write_file INV vs wf args doc f_type w =
  ({| heap := heap w;
      log := log w ++ write_file_log INV vs args doc f_type t;
      files := files w;
      writes := writes w ++ [report_write INV vs args doc t] |},
   Return (report_path INV vs args doc t)).
Proof.
  intros Hget Hok.
  unfold write_file, replace_invalid_chars, write_document.
  rewrite bind_logging, Hget, bind_ret.
  unfold bind, logging, ret, logged. cbn [heap log files writes].
  fold (fixed_filename INV
          (doc_name doc +:+ "-" +:+ vs (doc_version doc) +:+ "." +:+ suffix t)).
  fold (report_path INV vs args doc t). rewrite Hok.
  unfold write_file_log. rewrite <- !app_assoc. reflexivity.
Qed.

Lemma write_file_raises INV vs wf args doc w f_type t e :
  get_file_type f_type = ret t ->
  wf (report_path INV vs args doc t) t doc = Some e ->
  write_file INV vs wf args doc f_type w =
  (logged w (write_file_log INV vs args doc f_type t), Raise e).
Proof.
  intros Hget Hbad.
  unfold write_file, replace_invalid_chars, write_document.
  rewrite bind_logging, Hget, bind_ret.
  unfold bind, logging, ret, logged. cbn [heap log files writes].
  fold (fixed_filename INV
          (doc_name doc +:+ "-" +:+ vs (doc_version doc) +:+ "." +:+ suffix t)).
  fold (report_path INV vs args doc t). rewrite Hbad.
  unfold write_file_log. rewrite <- !app_assoc. reflexivity.
Qed.

Lemma get_file_type_members :
  get_file_type "tv" = ret TV
  /\ get_file_type "rdf" = ret RDF
  /\ get_file_type "xml" = ret XML.
Proof. repeat split; vm_compute; reflexivity. Qed.

(** C3: with the file type "all", [write_report] writes for TV, RDF and XML
    in that order and, unless one of the writes raises, returns three paths
    and has written three times.  The suffix of RDF and the suffix of XML
    are both "xml": the second and the third path are one and the same, and
    the XML writer opens the path the RDF writer has just written to. *)
Theorem write_report_all_reuses_xml_path INV vs wf args doc w :
  (write_report INV vs wf args doc "all" w).2 =
    match first_write_error wf INV vs args doc [TV; RDF; XML] with
    | Some e => Raise e
    | None =>
        Return [report_path INV vs args doc TV;
                report_path INV vs args doc RDF;
                report_path INV vs args doc XML]
    end
  /\ (first_write_error wf INV vs args doc [TV; RDF; XML] = None ->
      writes (write_report INV vs wf args doc "all" w).1 =
        writes w ++ [report_write INV vs args doc TV;
                     report_write INV vs args doc RDF;
                     report_write INV vs args doc XML])
  /\ suffix TV = "tv" /\ suffix RDF = "xml" /\ suffix XML = "xml"
  /\ report_path INV vs args doc RDF = report_path INV vs args doc XML
  /\ write_module (report_write INV vs args doc RDF) = "spdx.writers.rdf"
  /\ write_module (report_write INV vs args doc XML) = "spdx.writers.xml".
Proof.
  destruct get_file_type_members as (Htv & Hrdf & Hxml).
  assert (Hrun : write_report INV vs wf args doc "all" w =
                 write_report_loop INV vs wf args doc ["tv"; "rdf"; "xml"] [] w)
    by reflexivity.
  rewrite Hrun. cbn [write_report_loop first_write_error].
  split; [|split; [|repeat split; reflexivity]].
  - unfold bind at 1.
    destruct (wf (report_path INV vs args doc TV) TV doc) as [e|] eqn:E1.
    { rewrite (write_file_raises _ _ _ _ _ _ _ _ _ Htv E1). reflexivity. }
    rewrite (write_file_eval _ _ _ _ _ _ _ _ Htv E1). unfold bind at 1.
    destruct (wf (report_path INV vs args doc RDF) RDF doc) as [e|] eqn:E2.
    { rewrite (write_file_raises _ _ _ _ _ _ _ _ _ Hrdf E2). reflexivity. }
    rewrite (write_file_eval _ _ _ _ _ _ _ _ Hrdf E2). unfold bind at 1.
    destruct (wf (report_path INV vs args doc XML) XML doc) as [e|] eqn:E3.
    { rewrite (write_file_raises _ _ _ _ _ _ _ _ _ Hxml E3). reflexivity. }
    rewrite (write_file_eval _ _ _ _ _ _ _ _ Hxml E3). reflexivity.
  - intros Hok.
    destruct (wf (report_path INV vs args doc TV) TV doc) as [e|] eqn:E1;
      [discriminate|].
    destruct (wf (report_path INV vs args doc RDF) RDF doc) as [e|] eqn:E2;
      [discriminate|].
    destruct (wf (report_path INV vs args doc XML) XML doc) as [e|] eqn:E3;
      [discriminate|].
    unfold bind at 1. rewrite (write_file_eval _ _ _ _ _ _ _ _ Htv E1).
    unfold bind at 1. rewrite (write_file_eval _ _ _ _ _ _ _ _ Hrdf E2).
    unfold bind at 1. rewrite (write_file_eval _ _ _ _ _ _ _ _ Hxml E3).
    unfold ret. cbn [fst writes]. rewrite <- !app_assoc. reflexivity.
Qed.


(** * Further properties of the program *)

(** ** Computations that only log *)

Lemma only_logs_ret {A} (a : A) : only_logs (ret a).
Proof. intros w. exists []. rewrite logged_nil. reflexivity. Qed.

Lemma only_logs_raise {A} (e : PyExc) : only_logs (@raise A e).
Proof. intros w. exists []. rewrite logged_nil. reflexivity. Qed.

Lemma only_logs_logging lv msg : only_logs (logging lv msg).
Proof. intros w. eexists. reflexivity. Qed.

Lemma only_logs_deref l : only_logs (deref l).
Proof.
  intros w. exists []. rewrite logged_nil. unfold deref.
  destruct (heap w !! l); reflexivity.
Qed.

Lemma only_logs_bind {A B} (m : Py A) (k : A -> Py B) :
  only_logs m -> (forall a, only_logs (k a)) -> only_logs (bind m k).
Proof.
  intros Hm Hk w. unfold bind. destruct (Hm w) as [r1 H1].
  destruct (m w) as [w1 [a|e]]; simpl in *; subst w1.
  - destruct (Hk a (logged w r1)) as [r2 H2]. rewrite H2, logged_logged. eauto.
  - eauto.
Qed.

Ltac only_logs_step :=
  first
    [ apply only_logs_bind; [|intros ?]
    | apply only_logs_ret
    | apply only_logs_raise
    | apply only_logs_logging
    | apply only_logs_deref
    | match goal with
      | |- only_logs (match ?x with _ => _ end) => destruct x
      | |- only_logs (if ?x then _ else _) => destruct x
      end ].

Lemma only_logs_get_author_from_cr crs : only_logs (get_author_from_cr crs).
Proof. unfold get_author_from_cr. repeat only_logs_step. Qed.

(** X1: whatever its outcome, [create_package] leaves the due-diligence
    store, the files and the reports written as they were; it only adds
    records at the end of the log. *)
Theorem create_package_only_logs lib dd_dict w :
  exists recs,
    let w' := (create_package lib dd_dict w).1 in
    heap w' = heap w /\ files w' = files w /\ writes w' = writes w
    /\ log w' = log w ++ recs.
Proof.
  assert (H : only_logs (create_package lib dd_dict)).
  { unfold create_package.
    repeat (only_logs_step || apply only_logs_get_author_from_cr). }
  destruct (H w) as [recs Hw]. exists recs. simpl. rewrite Hw.
  repeat split; reflexivity.
Qed.

(** ** [get_author_from_cr], case by case *)

Lemma get_author_from_cr_exact crs w :
  get_author_from_cr crs w =
  (logged w (author_cr_log crs),
   Return (match cr_authors crs with [] => None | _ => last (cr_authors crs) end)).
Proof.
  unfold get_author_from_cr, author_cr_log.
  destruct (1 <? length (cr_authors crs))%nat.
  - rewrite bind_logging. reflexivity.
  - destruct (bool_decide (cr_authors crs = [])).
    + rewrite bind_logging. reflexivity.
    + rewrite bind_ret, logged_nil. reflexivity.
Qed.

(** The authors that [get_author_from_cr] collects are the non-empty
    ['author'] values of the entries. *)
Lemma elem_of_cr_authors (a : string) crs :
  a ∈ cr_authors crs <->
  a <> EmptyString /\ exists c, c ∈ crs /\ cr_author c = Some a.
Proof.
  unfold cr_authors. rewrite list_elem_of_omap. split.
  - intros (c & Hc & Hf). destruct (cr_author c) as [s|] eqn:E; [|discriminate].
    destruct s as [|x s]; [discriminate|]. simpl in Hf. injection Hf as <-.
    split; [discriminate|]. exists c. auto.
  - intros (Hne & c & Hc & E). exists c. split; [exact Hc|].
    rewrite E. destruct a; [congruence|reflexivity].
Qed.

(** X2: [get_author_from_cr] never raises.  With no entry that carries a
    non-empty author it logs "No author data found on lib" and returns
    [None]; with exactly one it logs nothing and returns that author; with
    more it logs one warning with their number and returns the last one. *)
Theorem get_author_from_cr_cases crs w :
  (cr_authors crs = [] ->
   get_author_from_cr crs w =
   (logged w [{| level := WARNING; message := "No author data found on lib" |}],
    Return None))
  /\ (forall a, cr_authors crs = [a] ->
      get_author_from_cr crs w = (w, Return (Some a)))
  /\ (forall a b rest, cr_authors crs = a :: b :: rest ->
      get_author_from_cr crs w =
      (logged w [{| level := WARNING;
                    message := "Found " +:+ str_of_nat (S (S (length rest)))
                               +:+ " authors on the lib. Will return the 1st" |}],
       Return (last (b :: rest)))).
Proof.
  rewrite get_author_from_cr_exact. unfold author_cr_log.
  split; [|split].
  - intros ->. reflexivity.
  - intros a ->. cbn. rewrite logged_nil. reflexivity.
  - intros a b rest ->. reflexivity.
Qed.

(** ** [create_package], exactly *)

(** One step of a computation whose head logs [recs] and returns [v]. *)
Ltac py_exact v recs tac :=
  match goal with
  | |- bind ?m ?k ?W = _ =>
      let H := fresh "Hstep" in
      assert (m W = (logged W recs, Return v)) as H by tac;
      rewrite (bind_returns m k W v recs H); clear H; cbv beta;
      rewrite ?logged_logged
  end.

Lemma create_package_exact lib dd_dict w lic0 rest l d :
  lib_licenses lib = lic0 :: rest ->
  dd_dict !! (lib_filename lib, lic_name lic0) = Some l ->
  heap w !! l = Some d ->
  create_package lib dd_dict w =
  (logged w (package_log lib (dd_author d)),
   Return (package_of lib (dd_author d), package_id lib)).
Proof.
  intros H1 H2 H3. unfold create_package. cbv zeta.
  rewrite bind_logging.
  py_exact (Some (dd_author d)) (@nil LogRecord)
    ltac:(rewrite logged_nil, H1; cbn [map]; rewrite H2;
          unfold bind, deref, ret; cbn [heap logged]; rewrite H3; reflexivity).
  py_exact (resolved_author (dd_author d) (lib_copyrightReferences lib))
    (if truthy (dd_author d) then []
     else {| level := DEBUG;
             message := "No author found from Due Diligence data. Will to get copyright from library data" |}
          :: author_cr_log (lib_copyrightReferences lib))
    ltac:(unfold resolved_author; destruct (truthy (dd_author d)); cbn [negb];
          [ apply ret_eval
          | rewrite bind_logging, get_author_from_cr_exact, logged_logged;
            reflexivity ]).
  py_exact (originator_of (resolved_author (dd_author d) (lib_copyrightReferences lib)))
    (if truthy (resolved_author (dd_author d) (lib_copyrightReferences lib))
     then [] else [no_author_warning lib])
    ltac:(unfold originator_of;
          destruct (resolved_author (dd_author d) (lib_copyrightReferences lib))
            as [a|] eqn:Ea;
          [ destruct (truthy (Some a));
            [ apply ret_eval | rewrite bind_logging; reflexivity ]
          | rewrite bind_logging; reflexivity ]).
  py_exact (cr_text (package_of lib (dd_author d)))
    (match lib_copyrightReferences lib with
     | [] => [no_copyright_warning lib]
     | _ => []
     end)
    ltac:(unfold package_of; cbn [cr_text];
          destruct (lib_copyrightReferences lib); cbn [map];
          [ rewrite bind_logging; reflexivity | apply ret_eval ]).
  py_exact tt (if references_truthy lib then [] else [no_references_warning lib])
    ltac:(unfold references_truthy;
          destruct (lib_references lib) as [r|];
          [ destruct (bool_decide (r = ∅)) |]; cbn [negb];
          first [ apply ret_eval | reflexivity ]).
  py_exact tt
    (if (1 <? length (lib_licenses lib))%nat then [many_licenses_warning lib] else [])
    ltac:(rewrite length_map;
          destruct (1 <? length (lib_licenses lib))%nat;
          [ reflexivity | apply ret_eval ]).
  py_exact (license_declared (package_of lib (dd_author d)))
    (match lib_licenses lib with
     | [] => [no_license_warning lib]
     | _ => []
     end)
    ltac:(unfold package_of, licenses_of; cbn [license_declared];
          destruct (lib_licenses lib); cbn [map];
          [ rewrite bind_logging; reflexivity | apply ret_eval ]).
  rewrite bind_logging, logged_logged. unfold ret.
  f_equal.
  - unfold package_log. rewrite <- !app_assoc. reflexivity.
  - f_equal. f_equal.
    unfold package_of, download_location_of, licenses_of, package_id.
    destruct (lib_references lib); reflexivity.
Qed.

(** ** The due-diligence index *)

Lemma convert_foldl_Some (h : list DueDiligenceEntry) (lst : list loc)
    (acc : gmap (string * string) loc) (k : string * string) (l : loc) :
  foldl (fun ret i =>
           match h !! i with
           | Some d => <[(dd_library d, dd_name d) := i]> ret
           | None => ret
           end) acc lst !! k = Some l ->
  acc !! k = Some l
  \/ (l ∈ lst /\ exists d, h !! l = Some d /\ (dd_library d, dd_name d) = k).
Proof.
  revert acc. induction lst as [|i lst IH]; intros acc H; cbn [foldl] in H.
  - left. exact H.
  - apply IH in H as [H|(Hin & d & Hd & Hk)].
    + destruct (h !! i) as [di|] eqn:Hi.
      * destruct (decide ((dd_library di, dd_name di) = k)) as [Hk|Hk].
        -- rewrite Hk, lookup_insert_eq in H. injection H as <-.
           right. split; [apply elem_of_cons; left; reflexivity|]. eauto.
        -- rewrite lookup_insert_ne in H by exact Hk. left. exact H.
      * left. exact H.
    + right. split; [apply elem_of_cons; right; exact Hin|]. eauto.
Qed.

Lemma convert_foldl_is_Some (h : list DueDiligenceEntry) (lst : list loc)
    (acc : gmap (string * string) loc) (k : string * string) :
  is_Some (acc !! k)
  \/ (exists l d, l ∈ lst /\ h !! l = Some d /\ (dd_library d, dd_name d) = k) ->
  is_Some (foldl (fun ret i =>
                    match h !! i with
                    | Some d => <[(dd_library d, dd_name d) := i]> ret
                    | None => ret
                    end) acc lst !! k).
Proof.
  revert acc. induction lst as [|i lst IH]; intros acc H; cbn [foldl].
  - destruct H as [H|(l & d & Hin & _)]; [exact H|]. inversion Hin.
  - apply IH. destruct H as [H|(l & d & Hin & Hd & Hk)].
    + left. destruct (h !! i) as [di|]; [|exact H].
      destruct (decide ((dd_library di, dd_name di) = k)) as [Hk|Hk].
      * rewrite Hk, lookup_insert_eq. eauto.
      * rewrite lookup_insert_ne by exact Hk. exact H.
    + apply elem_of_cons in Hin as [->|Hin].
      * left. rewrite Hd, Hk, lookup_insert_eq. eauto.
      * right. eauto.
Qed.

(** A key of the index refers to a dictionary of the list that has this
    key, and every key of a dictionary of the list is in the index. *)
Lemma convert_lookup_Some (h : list DueDiligenceEntry) (lst : list loc)
    (k : string * string) (l : loc) :
  convert_dict_list_to_dict h lst !! k = Some l ->
  l ∈ lst /\ exists d, h !! l = Some d /\ (dd_library d, dd_name d) = k.
Proof.
  intros H. apply convert_foldl_Some in H as [H|H]; [|exact H].
  rewrite lookup_empty in H. discriminate.
Qed.

Lemma convert_lookup_is_Some (h : list DueDiligenceEntry) (lst : list loc)
    (k : string * string) (l : loc) (d : DueDiligenceEntry) :
  l ∈ lst -> h !! l = Some d -> (dd_library d, dd_name d) = k ->
  is_Some (convert_dict_list_to_dict h lst !! k).
Proof. intros. apply convert_foldl_is_Some. right. eauto. Qed.

(** The first key of a library is indexed after the normalisation loop
    exactly when the library has an entry in the caller's list. *)
Lemma first_key_indexed_has_entry (h : list DueDiligenceEntry) (due_dil : list loc) lib :
  (exists d, first_key_indexed
               (convert_dict_list_to_dict (stripped_heap h due_dil) due_dil)
               (stripped_heap h due_dil) lib d)
  <-> has_entry h due_dil lib.
Proof.
  split.
  - intros (d' & lic0 & rest & l & H1 & H2 & H3).
    apply convert_lookup_Some in H2 as (Hin & d'' & Hd'' & Hk).
    rewrite Hd'' in H3. injection H3 as ->.
    rewrite stripped_heap_lookup, decide_True in Hd'' by exact Hin.
    destruct (h !! l) as [d0|] eqn:Hd0; [|discriminate].
    injection Hd'' as <-. injection Hk as Hlib Hname.
    exists lic0, rest, l, d0. auto.
  - intros (lic0 & rest & l & d & H1 & Hin & Hd & Hlib & Hname).
    assert (Hs : stripped_heap h due_dil !! l = Some (strip_library d)).
    { rewrite stripped_heap_lookup, decide_True by exact Hin.
      rewrite Hd. reflexivity. }
    destruct (convert_lookup_is_Some _ _ (lib_filename lib, lic_name lic0) _ _ Hin Hs)
      as [l' Hl'].
    { simpl. rewrite Hlib, Hname. reflexivity. }
    destruct (convert_lookup_Some _ _ _ _ Hl') as (_ & d' & Hd' & _).
    exists d', lic0, rest, l'. auto.
Qed.

(** ** The loop of [create_packages] *)

Lemma create_packages_loop_inv libs dd_dict pkgs0 ids0 w w' pkgs ids :
  create_packages_loop libs dd_dict pkgs0 ids0 w = (w', Return (pkgs, ids)) ->
  exists pkgs1,
    pkgs = pkgs0 ++ pkgs1
    /\ Forall2 (fun lib pkg =>
                  exists d, first_key_indexed dd_dict (heap w) lib d
                            /\ pkg = package_of lib (dd_author d))
               libs pkgs1.
Proof.
  revert pkgs0 ids0 w. induction libs as [|lib libs IH]; intros pkgs0 ids0 w H.
  - injection H as _ <- _. exists []. rewrite app_nil_r. split; [reflexivity|constructor].
  - cbn [create_packages_loop] in H. unfold bind in H.
    destruct (create_package lib dd_dict w) as [w1 [[pkg id]|e]] eqn:Hpkg;
      [|discriminate].
    assert (Hheap : heap w1 = heap w).
    { pose proof (keeps_heap_create_package lib dd_dict w) as Hk.
      rewrite Hpkg in Hk. exact Hk. }
    apply create_package_Return in Hpkg as (lic0 & rest & l & d & H1 & H2 & H3 & -> & ->).
    apply IH in H as (pkgs1 & -> & HF). rewrite Hheap in HF.
    exists (package_of lib (dd_author d) :: pkgs1). rewrite <- app_assoc.
    split; [reflexivity|]. constructor; [|exact HF].
    exists d. split; [|reflexivity]. exists lic0, rest, l. auto.
Qed.

Lemma create_packages_loop_returns libs dd_dict pkgs0 ids0 w :
  Forall (fun lib => exists d, first_key_indexed dd_dict (heap w) lib d) libs ->
  exists recs pkgs ids,
    create_packages_loop libs dd_dict pkgs0 ids0 w = (logged w recs, Return (pkgs, ids)).
Proof.
  revert pkgs0 ids0 w. induction libs as [|lib libs IH]; intros pkgs0 ids0 w HF.
  - exists [], pkgs0, ids0. rewrite logged_nil. reflexivity.
  - inversion HF as [|? ? (d & lic0 & rest & l & H1 & H2 & H3) HF']; subst.
    cbn [create_packages_loop]. unfold bind.
    rewrite (create_package_exact _ _ _ _ _ _ _ H1 H2 H3).
    destruct (IH (pkgs0 ++ [package_of lib (dd_author d)]) (ids0 ++ [package_id lib])
                 (logged w (package_log lib (dd_author d))) HF')
      as (recs & pkgs & ids & Heq).
    rewrite Heq, logged_logged. eauto.
Qed.

(** The loop stops at the first library whose first key is not indexed. *)
Lemma create_packages_loop_stops good bad rest dd_dict pkgs0 ids0 w :
  Forall (fun lib => exists d, first_key_indexed dd_dict (heap w) lib d) good ->
  (forall k l, dd_dict !! k = Some l -> is_Some (heap w !! l)) ->
  ~ (exists d, first_key_indexed dd_dict (heap w) bad d) ->
  exists recs,
    create_packages_loop (good ++ bad :: rest) dd_dict pkgs0 ids0 w =
    (logged w recs,
     Raise (match lib_licenses bad with
            | [] => UnboundLocalError "author"
            | _ => AttributeError "'NoneType' object has no attribute 'get'"
            end)).
Proof.
  revert pkgs0 ids0 w. induction good as [|lib good IH]; intros pkgs0 ids0 w HF Hval Hbad.
  - cbn [app create_packages_loop]. unfold bind.
    destruct (lib_licenses bad) as [|lic0 lics] eqn:H1.
    + rewrite create_package_no_license by exact H1. eexists. reflexivity.
    + destruct (dd_dict !! (lib_filename bad, lic_name lic0)) as [l|] eqn:H2.
      * exfalso. destruct (Hval _ _ H2) as [d Hd]. apply Hbad.
        exists d, lic0, lics, l. auto.
      * rewrite (create_package_first_key_unmatched _ _ _ _ _ H1 H2).
        eexists. reflexivity.
  - inversion HF as [|? ? (d & lic0 & lics & l & H1 & H2 & H3) HF']; subst.
    cbn [app create_packages_loop]. unfold bind.
    rewrite (create_package_exact _ _ _ _ _ _ _ H1 H2 H3).
    destruct (IH (pkgs0 ++ [package_of lib (dd_author d)]) (ids0 ++ [package_id lib])
                 (logged w (package_log lib (dd_author d))) HF' Hval Hbad)
      as (recs & Heq).
    rewrite Heq, logged_logged. eauto.
Qed.

(** ** [create_packages] as a whole *)

Lemma create_packages_unfold libs due_dil w :
  create_packages libs due_dil w =
  match create_packages_loop libs
          (convert_dict_list_to_dict (stripped_heap (heap w) due_dil) due_dil) [] []
          {| heap := stripped_heap (heap w) due_dil;
             log := log w ++ [{| level := DEBUG; message := "Creating Packages entity" |}];
             files := files w; writes := writes w |}
  with
  | (w2, Return (pkgs, ids)) =>
      (logged w2 [{| level := DEBUG; message := "Finished creating Packages entity" |}],
       Return (pkgs, ids))
  | (w2, Raise e) => (w2, Raise e)
  end.
Proof.
  unfold create_packages. rewrite bind_logging.
  unfold bind at 1. rewrite for_each_store_stripped.
  unfold bind at 1. cbn [heap logged log files writes].
  unfold bind at 1.
  destruct (create_packages_loop _ _ _ _ _) as [w2 [[pkgs ids]|e]]; reflexivity.
Qed.

(** X3: [create_packages] returns packages exactly when every library of
    the report has a license entry and some due-diligence dictionary, its
    ['library'] taken without trailing ['*'], carries the library's file
    name together with the name of the library's first license. *)
Theorem create_packages_returns_iff libs due_dil w :
  (exists w' pkgs ids, create_packages libs due_dil w = (w', Return (pkgs, ids)))
  <-> Forall (has_entry (heap w) due_dil) libs.
Proof.
  rewrite create_packages_unfold.
  set (h1 := stripped_heap (heap w) due_dil).
  set (w1 := {| heap := h1 |}).
  split.
  - intros (w' & pkgs & ids & H).
    destruct (create_packages_loop _ _ _ _ _) as [w2 [[pkgs2 ids2]|e]] eqn:Hloop;
      [|discriminate].
    apply create_packages_loop_inv in Hloop as (pkgs1 & _ & HF).
    eapply Forall2_Forall_l; [exact HF|].
    apply Forall_forall. intros pkg _ lib (d & Hd & _).
    apply first_key_indexed_has_entry. exists d. exact Hd.
  - intros HF.
    destruct (create_packages_loop_returns libs
                (convert_dict_list_to_dict h1 due_dil) [] [] w1)
      as (recs & pkgs & ids & Heq).
    { apply Forall_forall. intros lib Hlib.
      apply (proj1 (Forall_forall _ _) HF) in Hlib.
      apply first_key_indexed_has_entry in Hlib. exact Hlib. }
    rewrite Heq. eauto.
Qed.

Lemma create_packages_returns_iff_witness :
  Forall (has_entry (heap Examples.world_two) [0; 1])
         [Examples.lib_foo; Examples.lib_baz].
Proof.
  apply (proj1 (create_packages_returns_iff
                  [Examples.lib_foo; Examples.lib_baz] [0; 1] Examples.world_two)).
  eexists _, _, _. vm_compute. reflexivity.
Defined.

(** X4: [create_packages] is all or nothing.  When the libraries before
    [bad] all have an entry and [bad] has none, the call raises and the
    packages built so far are lost: [UnboundLocalError] when [bad] has no
    license entry, [AttributeError] otherwise.  Nothing is written and no
    file is touched. *)
Theorem create_packages_first_failure good bad rest due_dil w :
  Forall (has_entry (heap w) due_dil) good ->
  ~ has_entry (heap w) due_dil bad ->
  exists w',
    create_packages (good ++ bad :: rest) due_dil w =
    (w', Raise (match lib_licenses bad with
                | [] => UnboundLocalError "author"
                | _ => AttributeError "'NoneType' object has no attribute 'get'"
                end))
    /\ writes w' = writes w /\ files w' = files w.
Proof.
  intros HF Hbad. rewrite create_packages_unfold.
  set (h1 := stripped_heap (heap w) due_dil).
  set (w1 := {| heap := h1 |}).
  destruct (create_packages_loop_stops good bad rest
              (convert_dict_list_to_dict h1 due_dil) [] [] w1) as (recs & Heq).
  - apply Forall_forall. intros lib Hlib.
    apply (proj1 (Forall_forall _ _) HF) in Hlib.
    apply first_key_indexed_has_entry in Hlib. exact Hlib.
  - intros k l Hk. apply convert_lookup_Some in Hk as (_ & d & Hd & _). eauto.
  - intros Hd. apply Hbad. apply first_key_indexed_has_entry. exact Hd.
  - rewrite Heq. eexists. split; [reflexivity|]. split; reflexivity.
Qed.

Lemma create_packages_first_failure_witness :
  exists w',
    create_packages ([Examples.lib_foo] ++ Examples.lib_bare :: [Examples.lib_baz])
      [0; 1] Examples.world_three = (w', Raise (UnboundLocalError "author"))
    /\ writes w' = [] /\ files w' = ∅.
Proof.
  apply (create_packages_first_failure [Examples.lib_foo] Examples.lib_bare
           [Examples.lib_baz] [0; 1] Examples.world_three).
  - constructor; [|constructor].
    exists Examples.lic_mit, [Examples.lic_apache], 0, Examples.dd_acme.
    split; [reflexivity|]. split; [apply elem_of_cons; left; reflexivity|].
    repeat split; reflexivity.
  - intros (lic0 & rest & l & d & H & _). discriminate H.
Defined.

(** Each returned package is [package_of] its library and the author of a
    dictionary of the caller's list that has the library's first key. *)
Lemma create_packages_packages libs due_dil w w' pkgs ids :
  create_packages libs due_dil w = (w', Return (pkgs, ids)) ->
  Forall2 (fun lib pkg =>
             exists lic0 rest l d,
               lib_licenses lib = lic0 :: rest
               /\ l ∈ due_dil
               /\ heap w !! l = Some d
               /\ rstrip "*" (dd_library d) = lib_filename lib
               /\ dd_name d = lic_name lic0
               /\ pkg = package_of lib (dd_author d))
          libs pkgs.
Proof.
  rewrite create_packages_unfold.
  set (h1 := stripped_heap (heap w) due_dil).
  set (w1 := {| heap := h1 |}).
  destruct (create_packages_loop _ _ _ _ _) as [w2 [[pkgs2 ids2]|e]] eqn:Hloop;
    [|discriminate].
  intros H. injection H as _ <- _.
  apply create_packages_loop_inv in Hloop as (pkgs1 & -> & HF).
  cbn [app]. eapply Forall2_impl; [exact HF|].
  intros lib pkg (d' & (lic0 & rest & l & H1 & H2 & H3) & ->).
  apply convert_lookup_Some in H2 as (Hin & d'' & Hd'' & Hk).
  cbn [heap w1] in H3. rewrite Hd'' in H3. injection H3 as ->.
  unfold h1 in Hd''.
  rewrite stripped_heap_lookup, decide_True in Hd'' by exact Hin.
  destruct (heap w !! l) as [d0|] eqn:Hd0; [|discriminate].
  injection Hd'' as <-. injection Hk as Hlib Hname.
  exists lic0, rest, l, d0. auto 10.
Qed.

(** X5: the trailing ['*'] of a due-diligence ['library'] is ignored when
    the author is looked up.  If [create_packages] returns, and every
    dictionary of the list whose ['library'] without trailing ['*'] is the
    file name of the i-th library and whose ['name'] is the name of its
    first license has the non-empty author [a], then the i-th package has
    the organisation [a] as originator and supplier. *)
Theorem originator_from_normalised_entry libs due_dil w w' pkgs ids
    (i : nat) lib pkg lic0 rest a :
  create_packages libs due_dil w = (w', Return (pkgs, ids)) ->
  libs !! i = Some lib ->
  pkgs !! i = Some pkg ->
  lib_licenses lib = lic0 :: rest ->
  (forall l d, l ∈ due_dil -> heap w !! l = Some d ->
               rstrip "*" (dd_library d) = lib_filename lib ->
               dd_name d = lic_name lic0 ->
               dd_author d = Some a) ->
  a <> EmptyString ->
  originator pkg = Value {| org_name := a; org_email := NoAssert |}
  /\ supplier pkg = Value {| org_name := a; org_email := NoAssert |}.
Proof.
  intros Hrun Hlib Hpkg Hlic Hall Hne.
  apply create_packages_packages in Hrun.
  destruct (Forall2_lookup_lr _ _ _ _ _ _ Hrun Hlib Hpkg)
    as (lic1 & rest1 & l & d & H1 & Hin & Hd & Hl & Hn & ->).
  rewrite Hlic in H1. injection H1 as <- <-.
  rewrite (Hall l d Hin Hd Hl Hn).
  unfold package_of. cbn [originator supplier]. unfold resolved_author.
  destruct a as [|c a']; [congruence|]. split; reflexivity.
Qed.

Lemma originator_from_normalised_entry_witness :
  exists w' pkgs ids pkg,
    create_packages [Examples.lib_foo] [0] Examples.world_acme = (w', Return (pkgs, ids))
    /\ pkgs !! 0 = Some pkg
    /\ originator pkg = Value {| org_name := "Acme Corp"; org_email := NoAssert |}
    /\ supplier pkg = Value {| org_name := "Acme Corp"; org_email := NoAssert |}.
Proof.
  eexists _, _, _, _. split; [vm_compute; reflexivity|].
  split; [reflexivity|].
  eapply (originator_from_normalised_entry [Examples.lib_foo] [0] Examples.world_acme
            _ _ _ 0 Examples.lib_foo _ Examples.lic_mit [Examples.lic_apache]
            "Acme Corp").
  - vm_compute. reflexivity.
  - reflexivity.
  - reflexivity.
  - reflexivity.
  - intros l d Hin Hd _ _. apply elem_of_cons in Hin as [->|Hin]; [|inversion Hin].
    injection Hd as <-. reflexivity.
  - discriminate.
Defined.

(** X6: the packages that [create_packages] returns follow the libraries
    of the report one by one and in order.  The i-th package has the name,
    file name, version and SHA-1 checksum of the i-th library, the
    identifier [SPDXRef-PACKAGE-<filename>], [files_analyzed] false, the
    supplier equal to the originator and the home page equal to the download
    location. *)
Theorem packages_follow_libraries libs due_dil w w' pkgs ids :
  create_packages libs due_dil w = (w', Return (pkgs, ids)) ->
  length pkgs = length libs
  /\ forall (i : nat) lib pkg,
       libs !! i = Some lib -> pkgs !! i = Some pkg ->
       pkg_name pkg = lib_name lib
       /\ spdx_id pkg = "SPDXRef-PACKAGE-" +:+ lib_filename lib
       /\ file_name pkg = Value (lib_filename lib)
       /\ version pkg = match lib_version lib with
                        | Some v => Value v
                        | None => NoAssert
                        end
       /\ check_sum pkg = {| alg_identifier := "SHA-1"; alg_value := lib_sha1 lib |}
       /\ files_analyzed pkg = false
       /\ supplier pkg = originator pkg
       /\ homepage pkg = download_location pkg.
Proof.
  intros Hrun. apply create_packages_packages in Hrun.
  split; [symmetry; exact (Forall2_length _ _ _ Hrun)|].
  intros i lib pkg Hlib Hpkg.
  destruct (Forall2_lookup_lr _ _ _ _ _ _ Hrun Hlib Hpkg)
    as (lic1 & rest1 & l & d & _ & _ & _ & _ & _ & ->).
  repeat split; reflexivity.
Qed.

Lemma packages_follow_libraries_witness :
  exists w' pkgs ids,
    create_packages [Examples.lib_foo; Examples.lib_baz] [0; 1] Examples.world_two
      = (w', Return (pkgs, ids))
    /\ length pkgs = 2.
Proof.
  destruct (create_packages [Examples.lib_foo; Examples.lib_baz] [0; 1]
              Examples.world_two) as [w' [[pkgs ids]|e]] eqn:Hrun;
    [|vm_compute in Hrun; discriminate].
  exists w', pkgs, ids. split; [reflexivity|].
  exact (proj1 (packages_follow_libraries _ _ _ _ _ _ Hrun)).
Defined.

(** X7: a package that [create_packages] returns never has the "none"
    marker as license.  Its library has a first license entry, which is both
    the declared and the concluded license, and [licenses_from_files] holds
    one license for every entry of the library, in order. *)
Theorem returned_package_licenses libs due_dil w w' pkgs ids (i : nat) lib pkg :
  create_packages libs due_dil w = (w', Return (pkgs, ids)) ->
  libs !! i = Some lib ->
  pkgs !! i = Some pkg ->
  licenses_from_files pkg =
    map (fun lic => {| full_name := lic_name lic; identifier := lic_spdxName lic |})
        (lib_licenses lib)
  /\ exists lic0 rest,
       lib_licenses lib = lic0 :: rest
       /\ license_declared pkg =
            Value {| full_name := lic_name lic0; identifier := lic_spdxName lic0 |}
       /\ conc_lics pkg =
            Value {| full_name := lic_name lic0; identifier := lic_spdxName lic0 |}.
Proof.
  intros Hrun Hlib Hpkg. apply create_packages_packages in Hrun.
  destruct (Forall2_lookup_lr _ _ _ _ _ _ Hrun Hlib Hpkg)
    as (lic0 & rest & l & d & H1 & _ & _ & _ & _ & ->).
  split; [reflexivity|]. exists lic0, rest. split; [exact H1|].
  unfold package_of, licenses_of. cbn [license_declared conc_lics].
  rewrite H1. split; reflexivity.
Qed.

Lemma returned_package_licenses_witness :
  exists w' pkgs ids pkg,
    create_packages [Examples.lib_foo] [0] Examples.world_acme = (w', Return (pkgs, ids))
    /\ pkgs !! 0 = Some pkg
    /\ license_declared pkg = Value {| full_name := "MIT"; identifier := Some "MIT" |}
    /\ length (licenses_from_files pkg) = 2.
Proof.
  eexists _, _, _, _. split; [vm_compute; reflexivity|].
  split; [reflexivity|].
  destruct (returned_package_licenses [Examples.lib_foo] [0] Examples.world_acme
              _ _ _ 0 Examples.lib_foo _ ltac:(vm_compute; reflexivity)
              eq_refl eq_refl)
    as (Hfiles & lic0 & rest & Hlic & Hdecl & _).
  injection Hlic as <- <-. split; [exact Hdecl|]. rewrite Hfiles. reflexivity.
Defined.

(** X8: in a package that [create_packages] returns, the copyright text is
    the "none" marker when the library has no copyright entry and otherwise
    the list of the ['copyright'] values of all entries, in order; the
    download location is the ['url'] of the library's references, and "no
    assertion" when there are no references or they have no ['url']. *)
Theorem returned_package_copyright_and_location
    libs due_dil w w' pkgs ids (i : nat) lib pkg :
  create_packages libs due_dil w = (w', Return (pkgs, ids)) ->
  libs !! i = Some lib ->
  pkgs !! i = Some pkg ->
  cr_text pkg =
    match lib_copyrightReferences lib with
    | [] => SPDXNone
    | crs => Value (map cr_copyright crs)
    end
  /\ download_location pkg =
       match lib_references lib with
       | Some r => match r !! "url" with Some u => Value u | None => NoAssert end
       | None => NoAssert
       end.
Proof.
  intros Hrun Hlib Hpkg. apply create_packages_packages in Hrun.
  destruct (Forall2_lookup_lr _ _ _ _ _ _ Hrun Hlib Hpkg)
    as (lic0 & rest & l & d & _ & _ & _ & _ & _ & ->).
  unfold package_of, download_location_of. cbn [cr_text download_location].
  split.
  - destruct (lib_copyrightReferences lib); reflexivity.
  - destruct (lib_references lib) as [r|]; [|reflexivity].
    destruct (bool_decide_reflect (r = ∅)) as [->|_]; cbn [negb];
      [|reflexivity].
    rewrite lookup_empty. reflexivity.
Qed.

Lemma returned_package_copyright_and_location_witness :
  exists w' pkgs ids pkg,
    create_packages [Examples.lib_foo; Examples.lib_baz] [0; 1] Examples.world_two
      = (w', Return (pkgs, ids))
    /\ pkgs !! 1 = Some pkg
    /\ cr_text pkg = Value [Some "Copyright 2019 Alice"]
    /\ download_location pkg = Value "https://example.org/baz".
Proof.
  eexists _, _, _, _. split; [vm_compute; reflexivity|].
  split; [reflexivity|].
  destruct (returned_package_copyright_and_location
              [Examples.lib_foo; Examples.lib_baz] [0; 1] Examples.world_two
              _ _ _ 1 Examples.lib_baz _ ltac:(vm_compute; reflexivity)
              eq_refl eq_refl)
    as (Hcr & Hdl).
  split; [exact Hcr|]. rewrite Hdl. vm_compute. reflexivity.
Defined.

(** ** Diagnostics of [create_package] *)

(** Case analysis of a membership in a log that is put together from
    conditionals. *)
Ltac log_split H :=
  repeat first
    [ apply elem_of_app in H as [H|H]
    | apply elem_of_cons in H as [H|H]
    | apply elem_of_nil in H; destruct H
    | match type of H with
      | _ ∈ (if ?c then _ else _) => destruct c eqn:?
      | _ ∈ (match ?c with _ => _ end) => destruct c eqn:?
      end ].

(** Two log records with different levels or different message texts. *)
Ltac log_neq H :=
  first
    [ discriminate H
    | injection H as H; repeat rewrite append_String in H; discriminate H ].

Ltac log_leaf H :=
  first [ assumption | reflexivity | congruence | exfalso; log_neq H ].

Tactic Notation "log_pick" integer(n) :=
  unfold package_log; do n (apply elem_of_app; right); apply elem_of_app; left.

Lemma in_log_no_author lib dda :
  no_author_warning lib ∈ package_log lib dda <->
  truthy (resolved_author dda (lib_copyrightReferences lib)) = false.
Proof.
  split.
  - intros H. unfold package_log, author_cr_log in H.
    unfold no_author_warning, no_copyright_warning, no_references_warning,
      many_licenses_warning, no_license_warning in H.
    log_split H; log_leaf H.
  - intros E. log_pick 2. rewrite E. apply list_elem_of_singleton. reflexivity.
Qed.

Lemma in_log_no_copyright lib dda :
  no_copyright_warning lib ∈ package_log lib dda <->
  lib_copyrightReferences lib = [].
Proof.
  split.
  - intros H. unfold package_log, author_cr_log in H.
    unfold no_author_warning, no_copyright_warning, no_references_warning,
      many_licenses_warning, no_license_warning in H.
    log_split H; log_leaf H.
  - intros E. log_pick 3. rewrite E. apply list_elem_of_singleton. reflexivity.
Qed.

Lemma in_log_no_references lib dda :
  no_references_warning lib ∈ package_log lib dda <->
  references_truthy lib = false.
Proof.
  split.
  - intros H. unfold package_log, author_cr_log in H.
    unfold no_author_warning, no_copyright_warning, no_references_warning,
      many_licenses_warning, no_license_warning in H.
    log_split H; log_leaf H.
  - intros E. log_pick 4. rewrite E. apply list_elem_of_singleton. reflexivity.
Qed.

Lemma in_log_many_licenses lib dda :
  many_licenses_warning lib ∈ package_log lib dda <->
  (1 < length (lib_licenses lib))%nat.
Proof.
  rewrite <- Nat.ltb_lt. split.
  - intros H. unfold package_log, author_cr_log in H.
    unfold no_author_warning, no_copyright_warning, no_references_warning,
      many_licenses_warning, no_license_warning in H.
    log_split H; log_leaf H.
  - intros E. log_pick 5. rewrite E. apply list_elem_of_singleton. reflexivity.
Qed.

Lemma in_log_no_license lib dda :
  no_license_warning lib ∈ package_log lib dda <-> lib_licenses lib = [].
Proof.
  split.
  - intros H. unfold package_log, author_cr_log in H.
    unfold no_author_warning, no_copyright_warning, no_references_warning,
      many_licenses_warning, no_license_warning in H.
    log_split H; log_leaf H.
  - intros E. log_pick 6. rewrite E. apply list_elem_of_singleton. reflexivity.
Qed.

Lemma originator_of_NoAssert author :
  originator_of author = NoAssert <-> truthy author = false.
Proof.
  unfold originator_of. destruct author as [[|c s]|]; simpl; split;
    intros H; first [reflexivity | discriminate H].
Qed.

Lemma references_truthy_false lib :
  references_truthy lib = false <->
  lib_references lib = None \/ lib_references lib = Some ∅.
Proof.
  unfold references_truthy. destruct (lib_references lib) as [r|].
  - destruct (bool_decide_reflect (r = ∅)) as [->|Hne]; simpl; split.
    + auto.
    + reflexivity.
    + discriminate.
    + intros [H|H]; [discriminate|]. injection H as ->. congruence.
  - split; auto.
Qed.

(** X9: [create_package] logs a warning exactly for the gaps it fills.
    When the first key of the library has a due-diligence entry, the records
    it adds to the log contain the warning "Unable to find the author"
    exactly when the originator is "no assertion", "No copyright info found"
    exactly when the library has no copyright entry, "No references were
    found" exactly when the references are missing or empty, the warning
    about several licenses exactly when there is more than one license entry,
    and never "No license found". *)
Theorem create_package_diagnostics lib dd_dict w lic0 rest l d :
  lib_licenses lib = lic0 :: rest ->
  dd_dict !! (lib_filename lib, lic_name lic0) = Some l ->
  heap w !! l = Some d ->
  exists w' pkg recs,
    create_package lib dd_dict w = (w', Return (pkg, package_id lib))
    /\ log w' = log w ++ recs
    /\ (no_author_warning lib ∈ recs <-> originator pkg = NoAssert)
    /\ (no_copyright_warning lib ∈ recs <-> lib_copyrightReferences lib = [])
    /\ (no_references_warning lib ∈ recs <->
        lib_references lib = None \/ lib_references lib = Some ∅)
    /\ (many_licenses_warning lib ∈ recs <-> (1 < length (lib_licenses lib))%nat)
    /\ no_license_warning lib ∉ recs.
Proof.
  intros H1 H2 H3.
  exists (logged w (package_log lib (dd_author d))),
    (package_of lib (dd_author d)), (package_log lib (dd_author d)).
  split; [apply (create_package_exact _ _ _ _ _ _ _ H1 H2 H3)|].
  split; [reflexivity|].
  split; [rewrite in_log_no_author; unfold package_of; cbn [originator];
          symmetry; apply originator_of_NoAssert|].
  split; [apply in_log_no_copyright|].
  split; [rewrite in_log_no_references; apply references_truthy_false|].
  split; [apply in_log_many_licenses|].
  rewrite in_log_no_license, H1. discriminate.
Qed.

Lemma create_package_diagnostics_witness :
  exists w' pkg recs,
    create_package Examples.lib_foo {[ ("foo-1.0.jar", "MIT") := 0 ]}
      Examples.world_anonymous = (w', Return (pkg, package_id Examples.lib_foo))
    /\ log w' = log Examples.world_anonymous ++ recs
    /\ many_licenses_warning Examples.lib_foo ∈ recs.
Proof.
  destruct (create_package_diagnostics Examples.lib_foo
              {[ ("foo-1.0.jar", "MIT") := 0 ]} Examples.world_anonymous
              Examples.lic_mit [Examples.lic_apache] 0 Examples.dd_mit_anonymous)
    as (w' & pkg & recs & Hrun & Hlog & _ & _ & _ & Hmany & _).
  - reflexivity.
  - vm_compute. reflexivity.
  - reflexivity.
  - exists w', pkg, recs. split; [exact Hrun|]. split; [exact Hlog|].
    apply Hmany. simpl. lia.
Defined.

(** ** File names *)

Lemma map_string_ext (f g : ascii -> ascii) s :
  (forall a, f a = g a) -> map_string f s = map_string g s.
Proof. intros H. induction s as [|a s IH]; simpl; [|rewrite H, IH]; reflexivity. Qed.

Lemma map_string_compose (f g : ascii -> ascii) s :
  map_string f (map_string g s) = map_string (fun a => f (g a)) s.
Proof. induction s as [|a s IH]; simpl; [|rewrite IH]; reflexivity. Qed.

Lemma map_string_id s : map_string (fun a => a) s = s.
Proof. induction s as [|a s IH]; simpl; [|rewrite IH]; reflexivity. Qed.

Lemma map_string_length f s : String.length (map_string f s) = String.length s.
Proof. induction s as [|a s IH]; simpl; [|rewrite IH]; reflexivity. Qed.

Lemma map_string_get f s (i : nat) :
  String.get i (map_string f s) = f <$> String.get i s.
Proof.
  revert i. induction s as [|a s IH]; intros i; simpl; [reflexivity|].
  destruct i as [|i]; [reflexivity|]. apply IH.
Qed.

Lemma replace_char_map c s :
  replace_char c s = map_string (fun a => if Ascii.eqb a c then "_"%char else a) s.
Proof. induction s as [|a s IH]; simpl; [|rewrite IH]; reflexivity. Qed.

Lemma fix_char_underscore INV : fix_char INV "_" = "_"%char.
Proof. unfold fix_char. destruct (bool_decide _); reflexivity. Qed.

(** The replacement loop maps every character by [fix_char]. *)
Lemma fixed_filename_map INV s :
  fixed_filename INV s = map_string (fix_char INV) s.
Proof.
  unfold fixed_filename. revert s.
  induction INV as [|c INV IH]; intros s; cbn [foldl].
  - rewrite <- (map_string_id s) at 1. apply map_string_ext. intros a.
    unfold fix_char. rewrite bool_decide_eq_false_2 by apply not_elem_of_nil.
    reflexivity.
  - rewrite IH, replace_char_map, map_string_compose.
    apply map_string_ext. intros a.
    destruct (Ascii.eqb_spec a c) as [->|Hne].
    + rewrite fix_char_underscore. unfold fix_char.
      rewrite bool_decide_eq_true_2 by (apply elem_of_cons; left; reflexivity).
      reflexivity.
    + unfold fix_char.
      destruct (bool_decide_reflect (a ∈ INV)) as [Hin|Hin].
      * rewrite bool_decide_eq_true_2 by (apply elem_of_cons; right; exact Hin).
        reflexivity.
      * rewrite bool_decide_eq_false_2; [reflexivity|].
        intros H. apply elem_of_cons in H as [H|H]; [congruence|exact (Hin H)].
Qed.

(** X10: [replace_invalid_chars] never raises and logs one debug record.
    The file name it returns has the length of the given one; at every
    position it has ['_'] where the given name has a character of
    [INVALID_FS_CHARS], and the given character elsewhere. *)
Theorem replace_invalid_chars_spec INV filename w :
  exists fixed msg,
    replace_invalid_chars INV filename w =
      (logged w [{| level := DEBUG; message := msg |}], Return fixed)
    /\ String.length fixed = String.length filename
    /\ forall i : nat,
         String.get i fixed =
         (fun c => if bool_decide (c ∈ INV) then "_"%char else c)
           <$> String.get i filename.
Proof.
  unfold replace_invalid_chars. rewrite bind_logging. unfold ret.
  eexists _, _. split; [reflexivity|].
  change (foldl (fun f char => replace_char char f) filename INV)
    with (fixed_filename INV filename).
  rewrite fixed_filename_map.
  split; [apply map_string_length|]. intros i. apply map_string_get.
Qed.

Lemma fixed_filename_no_slash INV s (i : nat) :
  "/"%char ∈ INV -> String.get i (fixed_filename INV s) <> Some "/"%char.
Proof.
  intros Hin. rewrite fixed_filename_map, map_string_get.
  destruct (String.get i s) as [a|]; simpl; [|discriminate].
  unfold fix_char. destruct (bool_decide_reflect (a ∈ INV)) as [Ha|Ha].
  - discriminate.
  - intros H. injection H as ->. exact (Ha Hin).
Qed.

(** X11: when ['/'] is one of [INVALID_FS_CHARS], the file name of a report
    contains no ['/'] and the path that [write_file] uses is the output
    directory followed by that file name, with a ['/'] between the two
    unless the directory is empty or ends in one. *)
Theorem report_path_in_out_dir INV vs args doc t :
  "/"%char ∈ INV ->
  exists fname,
    (forall i : nat, String.get i fname <> Some "/"%char)
    /\ report_path INV vs args doc t =
         if (String.eqb (out_dir args) EmptyString || endswith "/" (out_dir args))%bool
         then out_dir args +:+ fname
         else out_dir args +:+ "/" +:+ fname.
Proof.
  intros Hin.
  exists (fixed_filename INV
            (doc_name doc +:+ "-" +:+ vs (doc_version doc) +:+ "." +:+ suffix t)).
  split; [intros i; apply fixed_filename_no_slash; exact Hin|].
  unfold report_path, path_join.
  set (fname := fixed_filename INV _).
  assert (Hs : startswith "/" fname = false).
  { pose proof (fixed_filename_no_slash INV
                  (doc_name doc +:+ "-" +:+ vs (doc_version doc) +:+ "." +:+ suffix t)
                  0 Hin) as H0.
    fold fname in H0. destruct fname as [|a f]; [reflexivity|].
    simpl in *. destruct (Ascii.eqb_spec a "/") as [->|_]; [congruence|reflexivity]. }
  rewrite Hs. reflexivity.
Qed.

Lemma report_path_in_out_dir_witness :
  report_path ["/"%char; ":"%char] (fun _ => "2.2") Examples.args_all
    {| doc_name := "WhiteSource a/b SBOM report"; doc_namespace := "ns";
       document_spdx_id := "SPDXRef-DOCUMENT";
       doc_version := {| major := 2; minor := 2 |}; data_license := "CC0-1.0";
       creation_info := {| creators := [] |}; packages := []; relationships := [] |}
    TV = "output/WhiteSource a_b SBOM report-2.2.tv".
Proof.
  destruct (report_path_in_out_dir ["/"%char; ":"%char] (fun _ => "2.2")
              Examples.args_all
              {| doc_name := "WhiteSource a/b SBOM report"; doc_namespace := "ns";
                 document_spdx_id := "SPDXRef-DOCUMENT";
                 doc_version := {| major := 2; minor := 2 |}; data_license := "CC0-1.0";
                 creation_info := {| creators := [] |}; packages := [];
                 relationships := [] |} TV) as (fname & _ & _).
  - apply elem_of_cons. left. reflexivity.
  - vm_compute. reflexivity.
Defined.

(** ** Output formats *)

Lemma get_file_type_known f t :
  upper f = member_name t -> get_file_type f = ret t.
Proof.
  intros H. unfold get_file_type. rewrite H. destruct t; vm_compute; reflexivity.
Qed.

Lemma get_file_type_unknown f :
  (forall t, upper f <> member_name t) ->
  get_file_type f = raise (KeyError (upper f)).
Proof.
  intros H. unfold get_file_type, members. cbn [list_to_map foldr uncurry fst snd].
  rewrite lookup_insert_ne by (intros E; exact (H TV (eq_sym E))).
  rewrite lookup_insert_ne by (intros E; exact (H RDF (eq_sym E))).
  rewrite lookup_insert_ne by (intros E; exact (H XML (eq_sym E))).
  rewrite lookup_empty. reflexivity.
Qed.

Lemma write_report_single_eval INV vs wf args doc file_type t w :
  file_type <> "all" ->
  upper file_type = member_name t ->
  exists w',
    heap w' = heap w /\ files w' = files w
    /\ match wf (report_path INV vs args doc t) t doc with
       | None =>
           write_report INV vs wf args doc file_type w =
             (w', Return [report_path INV vs args doc t])
           /\ writes w' = writes w ++ [report_write INV vs args doc t]
       | Some e =>
           write_report INV vs wf args doc file_type w = (w', Raise e)
           /\ writes w' = writes w
       end.
Proof.
  intros Hall Hup.
  pose proof (get_file_type_known _ _ Hup) as Hget.
  assert (Hrun : write_report INV vs wf args doc file_type w =
                 match write_file INV vs wf args doc file_type w with
                 | (w1, Return p) => (w1, Return [p])
                 | (w1, Raise e) => (w1, Raise e)
                 end).
  { unfold write_report.
    rewrite (proj2 (String.eqb_neq file_type "all") Hall).
    cbn [write_report_loop]. unfold bind.
    destruct (write_file INV vs wf args doc file_type w) as [w1 [p|e]]; reflexivity. }
  rewrite Hrun.
  destruct (wf (report_path INV vs args doc t) t doc) as [e|] eqn:E.
  - rewrite (write_file_raises _ _ _ _ _ _ _ _ _ Hget E).
    eexists. split; [|split]; [| |split; reflexivity]; reflexivity.
  - rewrite (write_file_eval _ _ _ _ _ _ _ _ Hget E).
    eexists. split; [|split]; [| |split; reflexivity]; reflexivity.
Qed.



(** X13: a file type that is neither "all" nor, in upper case, the name of
    a member of [SPDXFileType] makes [write_report] raise [KeyError] with
    the upper-case type as key, after the "Saving report" record is logged
    and before anything is written. *)
Theorem write_report_unknown_type INV vs wf args doc file_type w :
  file_type <> "all" ->
  (forall t, upper file_type <> member_name t) ->
  write_report INV vs wf args doc file_type w =
  (logged w [{| level := INFO;
                message := "Saving report in " +:+ file_type +:+ " format" |}],
   Raise (KeyError (upper file_type))).
Proof.
  intros Hall Hup. unfold write_report.
  rewrite (proj2 (String.eqb_neq file_type "all") Hall).
  cbn [write_report_loop]. unfold bind at 1.
  unfold write_file. rewrite bind_logging, (get_file_type_unknown _ Hup).
  reflexivity.
Qed.

Lemma write_report_unknown_type_witness :
  (write_report [":"%char] (fun _ => "2.2") Examples.strict_writer
     Examples.args_all Examples.doc_empty "json" Examples.empty_world).2
  = Raise (KeyError "JSON").
Proof.
  rewrite (write_report_unknown_type [":"%char] (fun _ => "2.2")
             Examples.strict_writer Examples.args_all _ "json" Examples.empty_world).
  - reflexivity.
  - discriminate.
  - intros t. destruct t; discriminate.
Defined.

(** ** Configuration *)

Lemma init_eval json_loads args w :
  (files w !! extra args = None ->
   init json_loads args w =
   (logged w [{| level := WARNING;
                 message := extra args +:+ " configuration file was not found" |}],
    Return (with_empty_conf args)))
  /\ (forall text conf,
        files w !! extra args = Some (Readable text) ->
        json_loads text = Some conf ->
        init json_loads args w =
        (w, Return {| arg_type := arg_type args; extra := extra args;
                      out_dir := out_dir args; extra_conf := conf |}))
  /\ (forall text,
        files w !! extra args = Some (Readable text) ->
        json_loads text = None ->
        init json_loads args w =
        (logged w [{| level := ERROR;
                      message := "Unable to parse file: " +:+ extra args |}],
         Return (with_empty_conf args)))
  /\ (forall e,
        files w !! extra args = Some (Unreadable e) ->
        e <> FileNotFoundError -> e <> JSONDecodeError ->
        init json_loads args w = (w, Raise e)).
Proof.
  unfold init, try_except, open_read, bind, logging, ret, raise, with_empty_conf.
  cbn [extra]. repeat split.
  - intros ->. reflexivity.
  - intros text conf -> ->. reflexivity.
  - intros text -> ->. reflexivity.
  - intros e -> H1 H2. destruct e; try reflexivity; congruence.
Qed.

(** [init] returns with the fields of [args] other than the configuration
    as they were and with records added to the log, or raises with the world
    as it was. *)
Lemma init_cases json_loads args w :
  (exists recs conf,
     init json_loads args w =
     (logged w recs,
      Return {| arg_type := arg_type args; extra := extra args;
                out_dir := out_dir args; extra_conf := conf |}))
  \/ (exists e, init json_loads args w = (w, Raise e)).
Proof.
  destruct (init_eval json_loads args w) as (H1 & H2 & H3 & H4).
  destruct (files w !! extra args) as [[text|e]|] eqn:Hf.
  - destruct (json_loads text) as [conf|] eqn:Hj.
    + left. exists [], conf. rewrite logged_nil. apply (H2 text); auto.
    + left. eexists _, _. apply (H3 text); auto.
  - unfold init, try_except, open_read, bind, logging, ret, raise.
    cbn [extra]. rewrite Hf.
    destruct e;
      first [ left; eexists _, _; reflexivity | right; eexists; reflexivity ].
  - left. eexists _, _. apply H1. reflexivity.
Qed.

(** X14: the loading of the configuration in [init].  When the file does
    not exist, one warning is logged and the configuration is empty; when it
    holds JSON, the configuration is the parsed object, whatever [args] held
    before, and nothing is logged; when its text is not JSON, one error is
    logged and the configuration is empty; when reading it fails in another
    way (the path is a directory, may not be read, does not decode), [init]
    raises that error, which no handler catches. *)
Theorem init_outcome json_loads args w :
  (files w !! extra args = None ->
   init json_loads args w =
   (logged w [{| level := WARNING;
                 message := extra args +:+ " configuration file was not found" |}],
    Return (with_empty_conf args)))
  /\ (forall text conf,
        files w !! extra args = Some (Readable text) ->
        json_loads text = Some conf ->
        init json_loads args w =
        (w, Return {| arg_type := arg_type args; extra := extra args;
                      out_dir := out_dir args; extra_conf := conf |}))
  /\ (forall text,
        files w !! extra args = Some (Readable text) ->
        json_loads text = None ->
        init json_loads args w =
        (logged w [{| level := ERROR;
                      message := "Unable to parse file: " +:+ extra args |}],
         Return (with_empty_conf args)))
  /\ (forall e,
        files w !! extra args = Some (Unreadable e) ->
        e <> FileNotFoundError -> e <> JSONDecodeError ->
        init json_loads args w = (w, Raise e)).
Proof. apply init_eval. Qed.

(** ** Documents *)

Lemma only_logs_create_packages_loop libs dd_dict pkgs ids :
  only_logs (create_packages_loop libs dd_dict pkgs ids).
Proof.
  revert pkgs ids. induction libs as [|lib libs IH]; intros pkgs ids;
    cbn [create_packages_loop].
  - apply only_logs_ret.
  - apply only_logs_bind.
    + unfold create_package.
      repeat (only_logs_step || apply only_logs_get_author_from_cr).
    + intros [pkg id]. apply IH.
Qed.

(** [create_packages] writes no report and touches no file. *)
Lemma create_packages_frame libs due_dil w :
  writes (create_packages libs due_dil w).1 = writes w
  /\ files (create_packages libs due_dil w).1 = files w.
Proof.
  rewrite create_packages_unfold.
  match goal with
  | |- context [create_packages_loop ?l ?d ?p ?i ?w0] =>
      destruct (only_logs_create_packages_loop l d p i w0) as [recs Hl];
      destruct (create_packages_loop l d p i w0) as [w2 [[pkgs ids]|e]]
  end; cbn [fst] in *; subst w2; split; reflexivity.
Qed.

(** How [create_sbom_doc] reaches [create_packages] (lines 32-45). *)
Lemma assemble_sbom_doc_unfold args conn w :
  exists w0,
    heap w0 = heap w ++ due_diligence conn
    /\ writes w0 = writes w /\ files w0 = files w
    /\ assemble_sbom_doc args conn w =
       match create_packages (licenses_report conn)
               (seq (length (heap w)) (length (due_diligence conn))) w0 with
       | (w2, Return (pkgs, ids)) =>
           (w2, Return
                  {| doc_name := "WhiteSource " +:+ scope_name conn +:+ " SBOM report";
                     doc_namespace :=
                       default "http://[CreatorWebsite]/[pathToSpdx]/[DocumentName]-[UUID]"
                               (extra_conf args !! "namespace");
                     document_spdx_id := "SPDXRef-DOCUMENT";
                     doc_version := {| major := 2; minor := 2 |};
                     data_license := "CC0-1.0";
                     creation_info :=
                       {| creators :=
                            [CreatorOrganization (conn_name conn)
                               (default "ORG_EMAIL" (extra_conf args !! "org_email"));
                             CreatorTool "White Source SBOM Report Generator";
                             CreatorPerson
                               (default "PERSON" (extra_conf args !! "person"))
                               (default "PERSON_EMAIL" (extra_conf args !! "person_email"))] |};
                     packages := pkgs;
                     relationships := map described_by ids |})
       | (w2, Raise e) => (w2, Raise e)
       end.
Proof.
  eexists. split; [|split; [|split]]; cycle 3.
  - unfold assemble_sbom_doc, create_document, create_creation_info, alloc_dicts.
    unfold bind, logging, ret. cbn [heap log files writes fst snd].
    match goal with
    | |- context [create_packages ?l ?d ?w0] =>
        destruct (create_packages l d w0) as [w2 [[pkgs ids]|e]] eqn:Hrun
    end.
    + rewrite Hrun. cbn [relationships]. do 3 f_equal.
      apply (foldl_snoc_map described_by ids []).
    + rewrite Hrun. reflexivity.
  - reflexivity.
  - reflexivity.
  - reflexivity.
Qed.

(** X15: a document that [create_sbom_doc] assembles is named
    "WhiteSource <scope name> SBOM report", has the identifier
    SPDXRef-DOCUMENT, the version 2.2 and the data license CC0-1.0.  Its
    namespace and the e-mail and person of its creators are the values of the
    configuration keys, each key falling back to its own placeholder when it
    is absent; the creators are the organisation, the tool and the person,
    in this order. *)
Theorem assembled_document_metadata args conn w w' doc :
  assemble_sbom_doc args conn w = (w', Return doc) ->
  doc_name doc = "WhiteSource " +:+ scope_name conn +:+ " SBOM report"
  /\ document_spdx_id doc = "SPDXRef-DOCUMENT"
  /\ doc_version doc = {| major := 2; minor := 2 |}
  /\ data_license doc = "CC0-1.0"
  /\ doc_namespace doc =
       match extra_conf args !! "namespace" with
       | Some ns => ns
       | None => "http://[CreatorWebsite]/[pathToSpdx]/[DocumentName]-[UUID]"
       end
  /\ creators (creation_info doc) =
       [CreatorOrganization (conn_name conn)
          (match extra_conf args !! "org_email" with
           | Some e => e | None => "ORG_EMAIL" end);
        CreatorTool "White Source SBOM Report Generator";
        CreatorPerson
          (match extra_conf args !! "person" with
           | Some p => p | None => "PERSON" end)
          (match extra_conf args !! "person_email" with
           | Some e => e | None => "PERSON_EMAIL" end)].
Proof.
  destruct (assemble_sbom_doc_unfold args conn w) as (w0 & _ & _ & _ & ->).
  destruct (create_packages _ _ w0) as [w2 [[pkgs ids]|e]]; [|discriminate].
  intros H. injection H as _ <-. cbn.
  repeat split; try reflexivity;
    repeat match goal with |- context [extra_conf args !! ?k] =>
             destruct (extra_conf args !! k) end; reflexivity.
Qed.

Lemma assembled_document_metadata_witness :
  exists w' doc,
    assemble_sbom_doc
      {| arg_type := "tv"; extra := "sbom_extra.json"; out_dir := "output";
         extra_conf := {[ "person" := "Jane" ]} |}
      Examples.conn_two Examples.empty_world = (w', Return doc)
    /\ doc_namespace doc = "http://[CreatorWebsite]/[pathToSpdx]/[DocumentName]-[UUID]"
    /\ creators (creation_info doc) =
         [CreatorOrganization "Org" "ORG_EMAIL";
          CreatorTool "White Source SBOM Report Generator";
          CreatorPerson "Jane" "PERSON_EMAIL"].
Proof.
  destruct (assemble_sbom_doc
              {| arg_type := "tv"; extra := "sbom_extra.json"; out_dir := "output";
                 extra_conf := {[ "person" := "Jane" ]} |}
              Examples.conn_two Examples.empty_world)
    as [w' [doc|e]] eqn:Hrun; [|vm_compute in Hrun; discriminate].
  destruct (assembled_document_metadata _ _ _ _ _ Hrun)
    as (_ & _ & _ & _ & Hns & Hcr).
  exists w', doc. split; [reflexivity|]. rewrite Hns, Hcr.
  split; vm_compute; reflexivity.
Defined.

Lemma assemble_sbom_doc_frame args conn w :
  writes (assemble_sbom_doc args conn w).1 = writes w
  /\ files (assemble_sbom_doc args conn w).1 = files w.
Proof.
  destruct (assemble_sbom_doc_unfold args conn w) as (w0 & _ & Hw & Hf & ->).
  pose proof (create_packages_frame (licenses_report conn)
                (seq (length (heap w)) (length (due_diligence conn))) w0) as [Hw2 Hf2].
  destruct (create_packages _ _ w0) as [w2 [[pkgs ids]|e]]; cbn [fst] in *;
    rewrite Hw2, Hf2; auto.
Qed.

(** X16: one library without a matching due-diligence entry costs the whole
    document.  If the report of a scope contains a library that has no
    license entry, or whose first license name and file name are carried by
    no due-diligence dictionary of the scope (the ['library'] taken without
    trailing ['*']), [create_sbom_doc] raises and writes no report. *)
Theorem create_sbom_doc_unmatched_library INV vs wf args conn w lib :
  lib ∈ licenses_report conn ->
  (forall lic0 rest d,
     lib_licenses lib = lic0 :: rest -> d ∈ due_diligence conn ->
     ~ (rstrip "*" (dd_library d) = lib_filename lib /\ dd_name d = lic_name lic0)) ->
  exists w' e,
    create_sbom_doc INV vs wf args conn w = (w', Raise e)
    /\ writes w' = writes w /\ files w' = files w.
Proof.
  intros Hlib Hno. unfold create_sbom_doc. unfold bind at 1.
  pose proof (assemble_sbom_doc_frame args conn w) as [Hw Hf].
  destruct (assemble_sbom_doc_unfold args conn w) as (w0 & Hh & _ & _ & Heq).
  destruct (assemble_sbom_doc args conn w) as [w1 [doc|e]] eqn:Hrun.
  - exfalso.
    destruct (create_packages _ _ w0) as [w2 [[pkgs ids]|e]] eqn:Hpk; [|discriminate].
    apply create_packages_packages in Hpk.
    apply Forall2_Forall_l with (Q := fun l => l <> lib) in Hpk.
    + exact (proj1 (Forall_forall _ _) Hpk lib Hlib eq_refl).
    + apply Forall_forall.
      intros pkg _ lib' (lic0 & rest & l & d & H1 & Hin & Hd & Hl & Hn & _) ->.
      apply (Hno lic0 rest d H1); [|auto].
      rewrite Hh in Hd. apply elem_of_seq in Hin as [Hge _].
      rewrite lookup_app_r in Hd by exact Hge.
      apply list_elem_of_lookup. eauto.
  - exists w1, e. cbn [fst] in *. auto.
Qed.

Lemma create_sbom_doc_unmatched_library_witness :
  exists w' e,
    create_sbom_doc [":"%char] (fun _ => "2.2") Examples.strict_writer
      Examples.args_tv Examples.conn_bare Examples.empty_world = (w', Raise e)
    /\ writes w' = [] /\ files w' = ∅.
Proof.
  apply (create_sbom_doc_unmatched_library [":"%char] (fun _ => "2.2")
           Examples.strict_writer Examples.args_tv Examples.conn_bare
           Examples.empty_world Examples.lib_bare).
  - apply elem_of_cons. right. apply elem_of_cons. left. reflexivity.
  - intros lic0 rest d H. discriminate H.
Defined.

(** X17: when the document of a scope can be assembled and the requested
    type names one format, [create_sbom_doc] makes one write of that
    document, to the path of the format.  When the write goes through, the
    report is written once and this path is returned alone; when it raises
    (the document does not validate, the file cannot be opened),
    [create_sbom_doc] raises the same error and no report is written. *)
Theorem create_sbom_doc_single_type INV vs wf args conn w w1 doc t :
  assemble_sbom_doc args conn w = (w1, Return doc) ->
  arg_type args <> "all" ->
  upper (arg_type args) = member_name t ->
  exists w',
    match wf (report_path INV vs args doc t) t doc with
    | None =>
        create_sbom_doc INV vs wf args conn w =
          (w', Return [report_path INV vs args doc t])
        /\ writes w' = writes w ++ [report_write INV vs args doc t]
    | Some e =>
        create_sbom_doc INV vs wf args conn w = (w', Raise e)
        /\ writes w' = writes w
    end.
Proof.
  intros Hrun Hall Hup.
  assert (Heq : create_sbom_doc INV vs wf args conn w =
                match write_report INV vs wf args doc (arg_type args) w1 with
                | (w2, Return p) =>
                    (logged w2 [{| level := INFO;
                                   message := "Finished report: " +:+ scope_type conn |}],
                     Return p)
                | (w2, Raise e) => (w2, Raise e)
                end).
  { unfold create_sbom_doc, bind. rewrite Hrun.
    destruct (write_report INV vs wf args doc (arg_type args) w1) as [w2 [p|e]];
      reflexivity. }
  rewrite Heq.
  pose proof (assemble_sbom_doc_frame args conn w) as [Hw1 _].
  rewrite Hrun in Hw1. cbn [fst] in Hw1.
  destruct (write_report_single_eval INV vs wf args doc (arg_type args) t w1 Hall Hup)
    as (w2 & _ & _ & Hwr).
  destruct (wf (report_path INV vs args doc t) t doc) as [e|].
  - destruct Hwr as [-> Hw]. eexists. split; [reflexivity|].
    rewrite Hw. exact Hw1.
  - destruct Hwr as [-> Hw]. eexists. split; [reflexivity|].
    cbn [writes logged]. rewrite Hw, Hw1. reflexivity.
Qed.

Lemma create_sbom_doc_single_type_witness :
  exists w' doc,
    create_sbom_doc [":"%char] (fun _ => "2.2") Examples.strict_writer
      Examples.args_tv Examples.conn_two Examples.empty_world =
      (w', Return [report_path [":"%char] (fun _ => "2.2") Examples.args_tv doc TV])
    /\ length (writes w') = 1.
Proof.
  destruct (assemble_sbom_doc Examples.args_tv Examples.conn_two Examples.empty_world)
    as [w1 [doc|e]] eqn:Hrun; [|vm_compute in Hrun; discriminate].
  destruct (create_sbom_doc_single_type [":"%char] (fun _ => "2.2")
              Examples.strict_writer Examples.args_tv Examples.conn_two
              Examples.empty_world w1 doc TV Hrun) as (w' & Hcase).
  - discriminate.
  - reflexivity.
  - assert (Hok : Examples.strict_writer
                    (report_path [":"%char] (fun _ => "2.2") Examples.args_tv doc TV)
                    TV doc = None).
    { vm_compute in Hrun. injection Hrun as _ <-. reflexivity. }
    rewrite Hok in Hcase. destruct Hcase as [Heq Hw].
    exists w', doc. split; [exact Heq|]. rewrite Hw. reflexivity.
Defined.

(** ** [main] *)

Lemma main_loop_last INV vs wf args ws toks t acc w w' r :
  main_loop INV vs wf args ws (toks ++ [t]) acc w = (w', Return r) ->
  exists w1 paths,
    create_sbom_doc INV vs wf args (scope_data ws t) w1 = (w', Return paths)
    /\ r = Some paths.
Proof.
  revert acc w. induction toks as [|x toks IH]; intros acc w H;
    cbn [app main_loop] in H; unfold bind in H.
  - destruct (create_sbom_doc INV vs wf args (scope_data ws t) w)
      as [w1 [paths|e]] eqn:Hrun; [|discriminate].
    cbn [main_loop] in H. injection H as <- <-. eauto.
  - destruct (create_sbom_doc INV vs wf args (scope_data ws x) w)
      as [w1 [paths|e]] eqn:Hrun; [|discriminate].
    apply IH in H. exact H.
Qed.

(** The condition of line 270 fails. *)
Lemma scope_token_unusable (is_token : string -> bool) (scope_token : option string) :
  (forall token, scope_token = Some token ->
                 token = EmptyString \/ is_token token = false) ->
  match scope_token with
  | Some token => (truthy scope_token && is_token token)%bool
  | None => false
  end = false.
Proof.
  intros H. destruct scope_token as [token|]; [|reflexivity].
  destruct (H token eq_refl) as [->|E]; [reflexivity|].
  rewrite E. apply andb_false_r.
Qed.

(** [main] when [init] raises, and when the condition of line 270 holds. *)
Lemma main_init_raises INV vs json_loads wf is_token args scope_token ws w w1 e :
  init json_loads args w = (w1, Raise e) ->
  main INV vs json_loads wf is_token args scope_token ws w = (w1, Raise e).
Proof. intros H. unfold main. unfold bind at 1. rewrite H. reflexivity. Qed.


(** X18: without a usable scope token and with an organisation that has no
    project, [main] never returns.  If [init] raises, [main] raises that
    error; otherwise it logs that it works on all projects and raises
    [UnboundLocalError]: the local [file_paths] is returned without having
    been bound.  No report is written. *)
Theorem main_no_projects INV vs json_loads wf is_token args scope_token ws w :
  (forall token, scope_token = Some token ->
                 token = EmptyString \/ is_token token = false) ->
  get_projects ws = [] ->
  exists w',
    main INV vs json_loads wf is_token args scope_token ws w =
      (w', Raise (match (init json_loads args w).2 with
                  | Raise e => e
                  | Return _ => UnboundLocalError "file_paths"
                  end))
    /\ writes w' = writes w.
Proof.
  intros Htok Hproj.
  destruct (init_cases json_loads args w) as [(recs & conf & Hinit)|(e & Hinit)].
  - unfold main. unfold bind at 1. rewrite Hinit. cbn [snd].
    pose proof (scope_token_unusable is_token scope_token Htok) as Hc.
    unfold bind at 1.
    destruct scope_token as [token|]; [rewrite Hc|];
      rewrite bind_logging, Hproj; cbn [main_loop]; unfold ret, raise;
      eexists; split; reflexivity.
  - rewrite (main_init_raises _ _ _ _ _ _ _ _ _ _ _ Hinit), Hinit.
    eexists. split; reflexivity.
Qed.

Lemma main_no_projects_witness :
  exists w',
    main [":"%char] (fun _ => "2.2") (fun _ => None) Examples.strict_writer
      (fun _ => false) Examples.args_tv None Examples.ws_none Examples.empty_world =
      (w', Raise (UnboundLocalError "file_paths"))
    /\ writes w' = [].
Proof.
  apply (main_no_projects [":"%char] (fun _ => "2.2") (fun _ => None)
           Examples.strict_writer (fun _ => false)
           Examples.args_tv None Examples.ws_none Examples.empty_world).
  - intros token H. discriminate H.
  - reflexivity.
Defined.

(** X19: when [main] works through the projects of the organisation and
    returns, the paths it returns are those of the last project alone; the
    paths of the projects before it are dropped. *)
Theorem main_returns_last_project INV vs json_loads wf is_token args scope_token ws
    toks t w w' paths :
  (forall token, scope_token = Some token ->
                 token = EmptyString \/ is_token token = false) ->
  get_projects ws = toks ++ [t] ->
  main INV vs json_loads wf is_token args scope_token ws w = (w', Return paths) ->
  exists conf w1,
    create_sbom_doc INV vs wf
      {| arg_type := arg_type args; extra := extra args;
         out_dir := out_dir args; extra_conf := conf |}
      (scope_data ws t) w1 = (w', Return paths).
Proof.
  intros Htok Hproj.
  destruct (init_cases json_loads args w) as [(recs & conf & Hinit)|(e & Hinit)].
  2:{ rewrite (main_init_raises _ _ _ _ _ _ _ _ _ _ _ Hinit). discriminate. }
  unfold main. unfold bind at 1. rewrite Hinit.
  pose proof (scope_token_unusable is_token scope_token Htok) as Hc.
  unfold bind at 1. intros H. exists conf.
  assert (Hloop : exists w0 w2 r,
             main_loop INV vs wf
               {| arg_type := arg_type args; extra := extra args;
                  out_dir := out_dir args; extra_conf := conf |}
               ws (toks ++ [t]) None w0 = (w2, r)
             /\ match r with
                | Return (Some p) => (w2, Return p)
                | Return None => (w2, Raise (UnboundLocalError "file_paths"))
                | Raise e => (w2, Raise e)
                end = (w', Return paths)).
  { destruct scope_token as [token|]; [rewrite Hc in H|];
      rewrite bind_logging, Hproj in H;
      match type of H with
      | context [main_loop ?x1 ?x2 ?x3 ?x4 ?x5 ?x6 ?x7 ?w0] =>
          destruct (main_loop x1 x2 x3 x4 x5 x6 x7 w0) as [w2 r] eqn:Hl;
          exists w0, w2, r; split; [exact Hl|];
          destruct r as [[p|]|e]; exact H
      end. }
  destruct Hloop as (w0 & w2 & r & Hl & Hr).
  destruct r as [[p|]|e]; try discriminate.
  injection Hr as -> ->.
  apply main_loop_last in Hl as (w1 & paths' & Hrun & Hp).
  injection Hp as <-. eauto.
Qed.

Lemma main_returns_last_project_witness :
  exists w' paths conf w1,
    main [":"%char] (fun _ => "2.2") (fun _ => None) Examples.strict_writer
      (fun _ => false) Examples.args_tv None Examples.ws_two Examples.empty_world
      = (w', Return paths)
    /\ create_sbom_doc [":"%char] (fun _ => "2.2") Examples.strict_writer
         {| arg_type := "tv"; extra := "sbom_extra.json"; out_dir := "output";
            extra_conf := conf |}
         Examples.conn_two w1 = (w', Return paths)
    /\ paths = ["output/WhiteSource demo SBOM report-2.2.tv"]
    /\ length (writes w') = 2.
Proof.
  destruct (main [":"%char] (fun _ => "2.2") (fun _ => None) Examples.strict_writer
              (fun _ => false) Examples.args_tv None Examples.ws_two
              Examples.empty_world)
    as [w' [paths|e]] eqn:Hrun; [|vm_compute in Hrun; discriminate].
  destruct (main_returns_last_project [":"%char] (fun _ => "2.2") (fun _ => None)
              Examples.strict_writer (fun _ => false) Examples.args_tv None
              Examples.ws_two ["t1"] "t2" Examples.empty_world w' paths)
    as (conf & w1 & Hlast).
  - intros token H. discriminate H.
  - reflexivity.
  - exact Hrun.
  - exists w', paths, conf, w1. split; [reflexivity|]. split; [exact Hlast|].
    vm_compute in Hrun. injection Hrun as <- <-. split; reflexivity.
Defined.



(** ** Configuration errors and the run *)


